(** * Audit definitions of sqlmesh: a shallow embedding of
      [sqlmesh/core/audit/definition.py] and the properties of its loader,
      its render orchestration, its dependency cache and its hashes. *)

From Stdlib Require Import String Ascii List Bool ZArith Lia OrderedTypeEx.
From stdpp Require Import base gmap strings list sorting pretty.

Local Open Scope string_scope.
Set Warnings "-register-all".

(** ** Expressions

    The part of the sqlglot syntax tree that the module inspects with
    [isinstance] or builds itself.  Every other statement is [Other]. *)

Inductive Expression : Type :=
| Audit (expressions : list Expression)            (* d.Audit: the AUDIT (...) header *)
| Property (this : string) (value : option Expression)
| MacroDef (this : string) (expression : Expression) (* d.MacroDef *)
| JinjaQuery (text : string)                       (* d.JinjaQuery *)
| JinjaStatement (text : string)
| Select (expressions : list Expression)
         (from_ : option Expression) (where_ : option Expression)
| Subquery (this : Expression)
| Table (this : string)
| Column (this : string)
| Between (this low high : Expression)
| Star
| Tuple (expressions : list Expression)
| Array (expressions : list Expression)
| EQ (left right : Expression)
| Boolean (this : bool)
| Literal (this : string) (is_string : bool)
| Other (sql : string).

(** [isinstance(e, d.Audit)] *)
Definition is_Audit (e : Expression) : bool :=
  match e with Audit _ => true | _ => false end.

(** [isinstance(e, d.MacroDef)] *)
Definition is_MacroDef (e : Expression) : bool :=
  match e with MacroDef _ _ => true | _ => false end.

(** [isinstance(e, exp.Subqueryable)] *)
Definition is_Subqueryable (e : Expression) : bool :=
  match e with Select _ _ _ => true | _ => false end.

(** [e.name]: the text of the node's [this] argument. *)
Definition expr_name (e : Expression) : string :=
  match e with
  | Property n _ | MacroDef n _ | Table n | Column n | Literal n _ => n
  | _ => EmptyString
  end.

(** [e.args.get(value)] *)
Definition expr_value (e : Expression) : option Expression :=
  match e with Property _ v => v | _ => None end.

(** [e.expressions] *)
Definition expr_expressions (e : Expression) : list Expression :=
  match e with
  | Audit es | Tuple es | Array es | Select es _ _ => es
  | _ => []
  end.

(** ** Python values that reach the validators *)

Inductive Value : Type :=
| VNone
| VBool (b : bool)
| VStr (s : string)
| VExpr (e : Expression)
| VDict (d : gmap string Expression).

(** [str.lower] on text of ASCII characters: A-Z become a-z and nothing
    else changes. *)
Definition lower_ascii (c : ascii) : ascii :=
  let n := nat_of_ascii c in
  if (65 <=? n)%nat && (n <=? 90)%nat then ascii_of_nat (n + 32) else c.

Fixpoint lower_ascii_text (s : string) : string :=
  match s with
  | EmptyString => EmptyString
  | String c s' => String (lower_ascii c) (lower_ascii_text s')
  end.

(** Whether a text, held as its UTF-8 bytes, has ASCII characters only. *)
Fixpoint ascii_only (s : string) : bool :=
  match s with
  | EmptyString => true
  | String c s' => (nat_of_ascii c <? 128)%nat && ascii_only s'
  end.

Definition Path := string.

(** ** Errors

    One constructor per [raise] of the module, with the exception class it
    belongs to given by [error_class]. *)

Inductive ErrorClass :=
| AuditConfigErrorC | SQLMeshErrorC | ValidationErrorC | TypeErrorC | BdbQuitC.

Inductive Error : Type :=
| IncompleteDefinition (path : Path)
| AuditStatementRequired (path : Path)
| MissingRequiredFields (fields : gset string) (path : Path)
| InvalidExtraFields (fields : gset string) (path : Path)
| MissingSelectQuery (path : Path)
| ConstructionFailed (ex : Error) (path : Path)     (* [_raise_config_error(str(ex), path)] *)
| StandaloneCannotBlock (name : option string)      (* [values.get(name)] *)
| DefaultsShape
| InvalidDefaultsExpression (e : Expression)
| FieldInvalid (field : string)                     (* the validation framework *)
| MultipleValues (keyword : string)                 (* a keyword given twice *)
| RenderFailed (audit node : string)
| CannotDiff (audit other : string)
| BdbQuit.                                          (* the debugger, left by quitting *)

Definition error_class (e : Error) : ErrorClass :=
  match e with
  | IncompleteDefinition _ | AuditStatementRequired _
  | MissingRequiredFields _ _ | InvalidExtraFields _ _
  | MissingSelectQuery _ | ConstructionFailed _ _
  | StandaloneCannotBlock _ | DefaultsShape | InvalidDefaultsExpression _ =>
      AuditConfigErrorC
  | FieldInvalid _ => ValidationErrorC
  | MultipleValues _ => TypeErrorC
  | RenderFailed _ _ | CannotDiff _ _ => SQLMeshErrorC
  | BdbQuit => BdbQuitC
  end.

Inductive Result (A : Type) : Type :=
| Ok (a : A)
| Raise (e : Error).
Arguments Ok {A} a.
Arguments Raise {A} e.

Definition bind {A B} (r : Result A) (k : A → Result B) : Result B :=
  match r with Ok a => k a | Raise e => Raise e end.

Notation "'let*' x ':=' r 'in' k" := (bind r (λ x, k))
  (at level 10, x name, r at level 100, k at level 200, only parsing).

Definition is_Ok {A} (r : Result A) : bool :=
  match r with Ok _ => true | Raise _ => false end.

(** A field whose validator yields nothing is rejected by the framework. *)
Definition field {A} (name : string) (o : option A) : Result A :=
  match o with Some a => Ok a | None => Raise (FieldInvalid name) end.

(** ** Node data that the audits read *)

Inductive ExecutableKind := ExecutableKind_ (value : string).

Record Executable := { payload : string; kind : ExecutableKind }.

Inductive JinjaMacroRegistry := JinjaMacroRegistry_ (macros : list (string * string)).

Inductive TimeLike :=
| TimeStr (s : string)
| TimeInt (z : Z)
| TimeStamp (millis : Z).                  (* date and datetime objects *)

(** Python truth value of a time argument, for [start or c.EPOCH]. *)
Definition time_truthy (t : TimeLike) : bool :=
  match t with
  | TimeStr s => negb (String.eqb s EmptyString)
  | TimeInt z => negb (z =? 0)%Z
  | TimeStamp _ => true
  end.

Record TimeColumn := { column : string; format : option string }.

Definition ColumnsToTypes := gmap string string.

(** The fields of [_Model] that audits use. *)
Record Model := {
  model_name : string;
  model_dialect : string;
  time_column : option TimeColumn;
  model_python_env : gmap string Executable;
  only_execution_time : bool               (* [model.kind.only_execution_time] *)
}.

(** What a renderer is built from, and what [render] is called with. *)
Inductive KwValue :=
| KwExpr (e : Expression)
| KwEngineAdapter (columns : string → option ColumnsToTypes)
| KwOther (repr : string).

Record QueryRenderer := {
  qr_query : Expression;
  qr_dialect : string;
  qr_macro_definitions : list Expression;
  qr_path : Path;
  qr_jinja_macro_registry : JinjaMacroRegistry;
  qr_python_env : gmap string Executable;
  qr_only_execution_time : option bool      (* [None]: argument not passed *)
}.

(** [snapshots]: the physical table of every snapshot, by name; the module
    only hands it on. *)
Definition Snapshots := gmap string string.

Record RenderArgs := {
  ra_start : option TimeLike;
  ra_end : option TimeLike;
  ra_execution_time : option TimeLike;
  ra_snapshots : option Snapshots;
  ra_is_dev : bool;
  ra_kwargs : gmap string KwValue
}.

(** A versioned snapshot of a node of type [N]. *)
Record Snapshot (N : Type) := {
  snapshot_node : N;
  table_name : bool → bool → string         (* [table_name(is_dev, for_read)] *)
}.
Arguments snapshot_node {N}. Arguments table_name {N}.

Inductive SnapshotOrNode (N : Type) :=
| ANode (n : N)
| ASnapshot (s : Snapshot N).
Arguments ANode {N}. Arguments ASnapshot {N}.

(** ** Collaborators

    The functions the module imports: the renderer, the SQL library, the
    validators of [sqlmesh.core.model.common], the hash and the diff; and
    what the interpreter provides: the Unicode case mapping of [str.lower]
    for text that is not ASCII, and the debugger hook that [breakpoint()]
    calls, which returns when the debugger is continued or switched off and
    raises when it is quit or has no terminal. *)

Class Collaborators := {
  bool_validator : Value → option bool;
  expression_validator : Value → option Expression;
  jinja_macros_validator : Value → option JinjaMacroRegistry;
  py_str_dict : gmap string Expression → string;
  QueryRenderer_render : QueryRenderer → RenderArgs → option Expression;
  find_tables : Expression → string → gset string;
  to_table : string → string → Expression;
  quote_identifiers : Expression → string → Expression;
  convert_to_time_column : Model → TimeLike → option ColumnsToTypes → Expression;
  EPOCH : TimeLike;
  sql : Expression → string;                (* [e.sql(comments=False)] *)
  kind_rank : ExecutableKind → nat;
  py_str_env : list (string * Executable) → string;
  hash_data : list (option string) → string;
  unified_diff : string → string → string;
  canonical_sql : Expression → string → string;
  unicode_lower : string → string;
  breakpoint : Result unit
}.

(** [str.lower] *)
Definition lower `{Collaborators} (s : string) : string :=
  if ascii_only s then lower_ascii_text s else unicode_lower s.

(** ** Validators *)

Section Validators.
Context `{Collaborators}.

(** [str(v)] of a value that is neither an expression nor [None]. *)
Definition py_str (v : Value) : string :=
  match v with
  | VStr s => s
  | VBool true => "True"
  | VBool false => "False"
  | VDict d => py_str_dict d
  | VExpr e => sql e
  | VNone => "None"
  end.

Definition audit_string_validator (v : Value) : option string :=
  match v with
  | VExpr e => Some (lower (expr_name e))
  | VNone => None
  | _ => Some (lower (py_str v))
  end.

Definition _maybe_parse_arg_pair (e : Expression) : Result (string * Expression) :=
  match e with
  | EQ l r => Ok (expr_name l, r)
  | _ => Raise (InvalidDefaultsExpression e)
  end.

Fixpoint parse_arg_pairs (es : list Expression) : Result (list (string * Expression)) :=
  match es with
  | [] => Ok []
  | e :: es' =>
      let* p := _maybe_parse_arg_pair e in
      let* ps := parse_arg_pairs es' in
      Ok (p :: ps)
  end.

(** [dict(pairs)]: a later pair replaces an earlier one with the same key. *)
Definition py_dict {V} (pairs : list (string * V)) : gmap string V :=
  list_to_map (reverse pairs).

Definition audit_map_validator (v : Value) : Result (gmap string Expression) :=
  match v with
  | VExpr (Tuple es) | VExpr (Array es) =>
      let* ps := parse_arg_pairs es in Ok (py_dict ps)
  | VDict d => Ok d
  | _ => Raise DefaultsShape
  end.

(** The fields both audit classes declare, validated in declaration order;
    [blocking0] is the class's default for [blocking]. *)
Record AuditFields := {
  f_name : string;
  f_dialect : string;
  f_skip : bool;
  f_blocking : bool;
  f_query : Expression;
  f_defaults : gmap string Expression;
  f_jinja_macros : JinjaMacroRegistry
}.

Definition optional_field {A} (kwargs : gmap string Value) (name : string)
    (dflt : A) (validator : Value → Result A) : Result A :=
  match kwargs !! name with
  | None => Ok dflt
  | Some v => validator v
  end.

Definition query_validator (v : Value) : Result Expression :=
  let* q := field "query" (expression_validator v) in
  match q with
  | Select _ _ _ | JinjaQuery _ => Ok q
  | _ => Raise (FieldInvalid "query")
  end.

Definition validate_fields (blocking0 : bool) (kwargs : gmap string Value)
    : Result AuditFields :=
  let* name := match kwargs !! "name" with
         | None => Raise (FieldInvalid "name")
         | Some v => field "name" (audit_string_validator v)
         end in
  let* dialect := optional_field kwargs "dialect" EmptyString
              (λ v, field "dialect" (audit_string_validator v)) in
  let* skip := optional_field kwargs "skip" false (λ v, field "skip" (bool_validator v)) in
  let* blocking := optional_field kwargs "blocking" blocking0
               (λ v, field "blocking" (bool_validator v)) in
  let* query := match kwargs !! "query" with
          | None => Raise (FieldInvalid "query")
          | Some v => query_validator v
          end in
  let* defaults := optional_field kwargs "defaults" ∅ audit_map_validator in
  let* jinja_macros := optional_field kwargs "jinja_macros" (JinjaMacroRegistry_ [])
                   (λ v, field "jinja_macros" (jinja_macros_validator v)) in
  Ok {| f_name := name; f_dialect := dialect; f_skip := skip;
        f_blocking := blocking; f_query := query; f_defaults := defaults;
        f_jinja_macros := jinja_macros |}.
End Validators.

(** ** AuditMixin *)

Module AuditMixin.

(** The attributes the mixin reads. *)
Class Fields (A : Type) := {
  name : A → string;
  defaults : A → gmap string Expression;
  expressions_ : A → option (list Expression)
}.

(** The hook each audit class implements, for its kind of node. *)
Class Renderable (A N : Type) := {
  _create_query_renderer : A → N → QueryRenderer;
  node_name : N → string
}.

Section Mixin.
Context `{Collaborators} {A N : Type} `{!Fields A}.

Definition expressions (self : A) : list Expression :=
  default [] (expressions_ self).

Definition macro_definitions (self : A) : list Expression :=
  List.filter is_MacroDef (expressions self).

Context `{!Renderable A N}.

(** The names [render] takes as parameters of its own. *)
Definition render_parameters : list string :=
  ["start"; "end"; "execution_time"; "snapshots"; "is_dev"].

(** [{**self.defaults, **kwargs}] *)
Definition merged_kwargs (self : A) (kwargs : gmap string KwValue)
    : gmap string KwValue :=
  kwargs ∪ (KwExpr <$> defaults self).

Definition render_args (self : A) (start end_ execution_time : option TimeLike)
    (snapshots : option Snapshots) (is_dev : bool)
    (kwargs : gmap string KwValue) : RenderArgs :=
  {| ra_start := start; ra_end := end_; ra_execution_time := execution_time;
     ra_snapshots := snapshots; ra_is_dev := is_dev;
     ra_kwargs := merged_kwargs self kwargs |}.

Definition resolve_node (snapshot_or_node : SnapshotOrNode N) : N :=
  match snapshot_or_node with
  | ANode n => n
  | ASnapshot s => snapshot_node s
  end.

Definition render_query (self : A) (snapshot_or_node : SnapshotOrNode N)
    (start end_ execution_time : option TimeLike)
    (snapshots : option Snapshots) (is_dev : bool)
    (kwargs : gmap string KwValue) : Result Expression :=
  let node := resolve_node snapshot_or_node in
  let query_renderer := _create_query_renderer self node in
  let args := render_args self start end_ execution_time snapshots is_dev kwargs in
  match List.find (λ k, bool_decide (k ∈ dom (ra_kwargs args))) render_parameters with
  | Some k => Raise (MultipleValues k)
  | None =>
      match QueryRenderer_render query_renderer args with
      | None => Raise (RenderFailed (name self) (node_name node))
      | Some rendered_query => Ok rendered_query
      end
  end.
End Mixin.
End AuditMixin.

(** [Path()] *)
Definition Path_empty : Path := ".".

(** ** ModelAudit *)

Module ModelAudit.

Record t := {
  name : string;
  dialect : string;
  skip : bool;
  blocking : bool;
  query : Expression;
  defaults : gmap string Expression;
  expressions_ : option (list Expression);
  jinja_macros : JinjaMacroRegistry;
  _path : option Path
}.

Definition set_path (audit : t) (path : Path) : t :=
  {| name := name audit; dialect := dialect audit; skip := skip audit;
     blocking := blocking audit; query := query audit;
     defaults := defaults audit; expressions_ := expressions_ audit;
     jinja_macros := jinja_macros audit; _path := Some path |}.

(** The declared fields, under the names a definition uses for them
    ([expressions] is the alias of [expressions_]): those without a default
    value are required. *)
Definition required_fields : gset string := {["name"; "query"]}.

Definition optional_fields : gset string :=
  {["dialect"; "skip"; "blocking"; "defaults"; "expressions"; "jinja_macros"]}.

(** Modelled from the spec: [PydanticModel.missing_required_fields] of
    [sqlmesh.utils.pydantic], which is not part of this module, as
    [required − provided]. *)
Definition missing_required_fields (provided : gset string) : gset string :=
  required_fields ∖ provided.

(** Modelled from the spec: [PydanticModel.extra_fields] of
    [sqlmesh.utils.pydantic], which is not part of this module, as
    [provided − (required ∪ optional)]. *)
Definition extra_fields (provided : gset string) : gset string :=
  provided ∖ (required_fields ∪ optional_fields).

#[global] Instance fields : AuditMixin.Fields t :=
  {| AuditMixin.name := name;
     AuditMixin.defaults := defaults;
     AuditMixin.expressions_ := expressions_ |}.

Definition _create_query_renderer (self : t) (model : Model) : QueryRenderer :=
  {| qr_query := query self;
     qr_dialect := if String.eqb (dialect self) EmptyString then model_dialect model
                   else dialect self;
     qr_macro_definitions := AuditMixin.macro_definitions self;
     qr_path := default Path_empty (_path self);
     qr_jinja_macro_registry := jinja_macros self;
     qr_python_env := model_python_env model;
     qr_only_execution_time := Some (only_execution_time model) |}.

#[global] Instance renderable : AuditMixin.Renderable t Model :=
  {| AuditMixin._create_query_renderer := _create_query_renderer;
     AuditMixin.node_name := model_name |}.

Section Methods.
Context `{Collaborators}.

(** The constructor, with [expressions] already a list. *)
Definition new (kwargs : gmap string Value) (expressions : option (list Expression))
    : Result t :=
  let* f := validate_fields true kwargs in
  Ok {| name := f_name f; dialect := f_dialect f; skip := f_skip f;
        blocking := f_blocking f; query := f_query f;
        defaults := f_defaults f; expressions_ := expressions;
        jinja_macros := f_jinja_macros f; _path := None |}.

(** [start or c.EPOCH] *)
Definition or_epoch (time : option TimeLike) : TimeLike :=
  match time with
  | Some t => if time_truthy t then t else EPOCH
  | None => EPOCH
  end.

Definition this_model_name (snapshot_or_node : SnapshotOrNode Model)
    (is_dev : bool) : string :=
  match snapshot_or_node with
  | ANode node => model_name node
  | ASnapshot snapshot => table_name snapshot is_dev true
  end.

(** The [try: ... except Exception: pass] around the schema lookup. *)
Definition columns_to_types (kwargs : gmap string KwValue) (this_model : string)
    : option ColumnsToTypes :=
  match kwargs !! "engine_adapter" with
  | Some (KwEngineAdapter columns) => columns this_model
  | _ => None
  end.

Definition time_predicate (node : Model) (start end_ : option TimeLike)
    (types : option ColumnsToTypes) : option Expression :=
  match time_column node with
  | Some tc =>
      Some (Between (Column (column tc))
              (convert_to_time_column node (or_epoch start) types)
              (convert_to_time_column node (or_epoch end_) types))
  | None => None
  end.

(** [exp.select(star).from_(quoted_model_name).where(where).subquery()] *)
Definition this_model_subquery (self : t) (snapshot_or_node : SnapshotOrNode Model)
    (start end_ : option TimeLike) (is_dev : bool)
    (kwargs : gmap string KwValue) : Expression :=
  let node := AuditMixin.resolve_node snapshot_or_node in
  let this_model := this_model_name snapshot_or_node is_dev in
  let types := columns_to_types kwargs this_model in
  let where_ := time_predicate node start end_ types in
  let quoted_model_name :=
    quote_identifiers (to_table this_model (dialect self)) (dialect self) in
  Subquery (Select [Star] (Some quoted_model_name) where_).

Definition extra_kwargs (self : t) (snapshot_or_node : SnapshotOrNode Model)
    (start end_ : option TimeLike) (is_dev : bool)
    (kwargs : gmap string KwValue) : gmap string KwValue :=
  {[ "this_model" :=
       KwExpr (this_model_subquery self snapshot_or_node start end_ is_dev kwargs) ]}.

(** [{**extra_kwargs, **kwargs}], what [super().render_query] receives. *)
Definition super_kwargs (self : t) (snapshot_or_node : SnapshotOrNode Model)
    (start end_ : option TimeLike) (is_dev : bool)
    (kwargs : gmap string KwValue) : gmap string KwValue :=
  kwargs ∪ extra_kwargs self snapshot_or_node start end_ is_dev kwargs.

(** The keyword context that reaches the renderer. *)
Definition render_context (self : t) (snapshot_or_node : SnapshotOrNode Model)
    (start end_ : option TimeLike) (is_dev : bool)
    (kwargs : gmap string KwValue) : gmap string KwValue :=
  AuditMixin.merged_kwargs self
    (super_kwargs self snapshot_or_node start end_ is_dev kwargs).

Definition render_query (self : t) (snapshot_or_node : SnapshotOrNode Model)
    (start end_ execution_time : option TimeLike)
    (snapshots : option Snapshots) (is_dev : bool)
    (kwargs : gmap string KwValue) : Result Expression :=
  AuditMixin.render_query self snapshot_or_node start end_ execution_time
    snapshots is_dev
    (super_kwargs self snapshot_or_node start end_ is_dev kwargs).

(** [prop.args.get(value)] as a keyword value. *)
Definition property_value (prop : Expression) : Value :=
  match expr_value prop with
  | Some e => VExpr e
  | None => VNone
  end.

(** [{p.name for p in meta.expressions}] with [query] added. *)
Definition provided_meta_fields (props : list Expression) : gset string :=
  list_to_set (expr_name <$> props) ∪ {["query"]}.

(** The header keywords over the loader default:
    [{dialect: dialect or empty, **{prop.name: prop.args.get(value) ...}}] *)
Definition meta_kwargs (props : list Expression) (dialect : option string)
    : gmap string Value :=
  py_dict ((λ prop, (expr_name prop, property_value prop)) <$> props)
  ∪ {[ "dialect" := VStr (default EmptyString dialect) ]}.

(** [cls(query=query, expressions=statements, **kwargs)]: a keyword of the
    header that repeats [query] or [expressions] is a [TypeError]. *)
Definition construct (query : Expression) (statements : list Expression)
    (kwargs : gmap string Value) : Result t :=
  if bool_decide ("query" ∈ dom kwargs) then Raise (MultipleValues "query")
  else if bool_decide ("expressions" ∈ dom kwargs)
       then Raise (MultipleValues "expressions")
  else new (<["query" := VExpr query]> kwargs) (Some statements).

(** [ModelAudit.load], with the [breakpoint()] call that the
    missing-fields branch makes before it raises. *)
Definition load (expressions : list Expression) (path : Path)
    (dialect : option string) : Result t :=
  if (length expressions <? 2)%nat then Raise (IncompleteDefinition path)
  else
    match expressions with
    | [] => Raise (IncompleteDefinition path)
    | meta :: rest =>
        let statements := removelast rest in
        let query := List.last rest meta in
        match meta with
        | Audit props =>
            let provided := provided_meta_fields props in
            let missing := missing_required_fields provided in
            if bool_decide (missing ≠ ∅)
            then let* _ := breakpoint in
                 Raise (MissingRequiredFields missing path)
            else
              let extra := extra_fields provided in
              if bool_decide (extra ≠ ∅)
              then Raise (InvalidExtraFields extra path)
              else if negb (is_Subqueryable query)
              then Raise (MissingSelectQuery path)
              else
                match construct query statements (meta_kwargs props dialect) with
                | Raise ex => Raise (ConstructionFailed ex path)
                | Ok audit => Ok (set_path audit path)
                end
        | _ => Raise (AuditStatementRequired path)
        end
    end.

(** [ModelAudit.load_multiple], run to its end: the definitions yielded
    in order, and the error that ended the generator, if any. *)
Fixpoint load_multiple_from (audit_block expressions : list Expression)
    (path : Path) (dialect : option string) : list t * option Error :=
  match expressions with
  | [] =>
      match load audit_block path dialect with
      | Ok audit => ([audit], None)
      | Raise e => ([], Some e)
      end
  | expression :: rest =>
      if is_Audit expression && match audit_block with [] => false | _ => true end
      then
        match load audit_block path dialect with
        | Ok audit =>
            let '(audits, e) := load_multiple_from [expression] rest path dialect in
            (audit :: audits, e)
        | Raise e => ([], Some e)
        end
      else load_multiple_from (audit_block ++ [expression]) rest path dialect
  end.

Definition load_multiple (expressions : list Expression) (path : Path)
    (dialect : option string) : list t * option Error :=
  load_multiple_from [] expressions path dialect.
End Methods.
End ModelAudit.

(** ** StandaloneAudit *)

(** Python's order on strings, as a decidable relation for sorting. *)
Definition string_le (x y : string) : Prop := String.leb x y = true.

#[global] Instance string_le_dec : RelDecision string_le.
Proof. intros x y. unfold string_le. apply _. Defined.

Module StandaloneAudit.

Record t := {
  name : string;
  dialect : string;
  skip : bool;
  blocking : bool;
  query : Expression;
  defaults : gmap string Expression;
  expressions_ : option (list Expression);
  jinja_macros : JinjaMacroRegistry;
  depends_on_ : option (gset string);
  hash_raw_query : bool;
  python_env_ : option (gmap string Executable);
  (* inherited from [_Node] *)
  owner : option string;
  description : option string;
  tags : list string;
  stamp : option string;
  (* private attributes *)
  _path : option Path;
  _depends_on : option (gset string)
}.

(** The keyword arguments that no validator of this module touches. *)
Record NodeArgs := {
  arg_expressions : option (list Expression);
  arg_depends_on : option (gset string);
  arg_hash_raw_query : option bool;
  arg_python_env : option (gmap string Executable);
  arg_owner : option string;
  arg_description : option string;
  arg_tags : option (list string);
  arg_stamp : option string
}.

#[global] Instance fields : AuditMixin.Fields t :=
  {| AuditMixin.name := name;
     AuditMixin.defaults := defaults;
     AuditMixin.expressions_ := expressions_ |}.

Definition python_env (self : t) : gmap string Executable :=
  default ∅ (python_env_ self).

Definition _create_query_renderer (self : t) (audit : t) : QueryRenderer :=
  {| qr_query := query self;
     qr_dialect := dialect self;
     qr_macro_definitions := AuditMixin.macro_definitions self;
     qr_path := default Path_empty (_path self);
     qr_jinja_macro_registry := jinja_macros self;
     qr_python_env := python_env audit;
     qr_only_execution_time := None |}.

#[global] Instance renderable : AuditMixin.Renderable t t :=
  {| AuditMixin._create_query_renderer := _create_query_renderer;
     AuditMixin.node_name := name |}.

(** The values the root validator is given.  It reads them with
    [values.get]: a field is among them when it validated. *)
Record Values := {
  values_blocking : option bool;
  values_name : option string
}.

Definition _node_root_validator (values : Values) : Result Values :=
  if default false (values_blocking values)
  then Raise (StandaloneCannotBlock (values_name values))
  else Ok values.

(** The two in-place updates of the cache, which the declared set shares
    with it when [self.depends_on_ or set()] picked the declared set. *)
Definition set_depends_on (self : t) (declared cache : option (gset string)) : t :=
  {| name := name self; dialect := dialect self; skip := skip self;
     blocking := blocking self; query := query self; defaults := defaults self;
     expressions_ := expressions_ self; jinja_macros := jinja_macros self;
     depends_on_ := declared; hash_raw_query := hash_raw_query self;
     python_env_ := python_env_ self; owner := owner self;
     description := description self; tags := tags self; stamp := stamp self;
     _path := _path self; _depends_on := cache |}.

Section Methods.
Context `{Collaborators}.

(** [blocking] and [name] as the root validator finds them: the
    validated value of the keyword, the class default of [blocking]
    when it is not passed, nothing when the validation failed. *)
Definition validated_values (kwargs : gmap string Value) : Values :=
  {| values_blocking := match kwargs !! "blocking" with
                        | Some v => bool_validator v
                        | None => Some false
                        end;
     values_name := match kwargs !! "name" with
                    | Some v => audit_string_validator v
                    | None => None
                    end |}.

(** The constructor.  The root validator runs on the values that
    validated, also when another field did not, and its configuration
    error is raised as it is; without it the error of the first field
    that failed is raised, and otherwise the object is built. *)
Definition new (kwargs : gmap string Value) (args : NodeArgs) : Result t :=
  let* _ := _node_root_validator (validated_values kwargs) in
  let* f := validate_fields false kwargs in
  Ok {| name := f_name f; dialect := f_dialect f; skip := f_skip f;
        blocking := f_blocking f; query := f_query f;
        defaults := f_defaults f; expressions_ := arg_expressions args;
        jinja_macros := f_jinja_macros f;
        depends_on_ := arg_depends_on args;
        hash_raw_query := default false (arg_hash_raw_query args);
        python_env_ := arg_python_env args;
        owner := arg_owner args; description := arg_description args;
        tags := default [] (arg_tags args); stamp := arg_stamp args;
        _path := None; _depends_on := None |}.

(** [self.render_query(self)] *)
Definition render_self (self : t) : Result Expression :=
  AuditMixin.render_query self (ANode self) None None None None false ∅.

(** [self.depends_on_ or set()]: the declared set itself when it is not
    empty, a new empty set otherwise. *)
Definition shares_declared (self : t) : bool :=
  match depends_on_ self with
  | Some declared => negb (bool_decide (declared = ∅))
  | None => false
  end.

(** The [depends_on] property: its result, the object afterwards, and
    how many times it called [render_query]. *)
Definition depends_on (self : t) : Result (gset string) * t * nat :=
  match _depends_on self with
  | Some cached => (Ok cached, self, 0%nat)
  | None =>
      let initial := default ∅ (depends_on_ self) in
      let started := set_depends_on self (depends_on_ self) (Some initial) in
      match render_self started with
      | Raise e => (Raise e, started, 1%nat)
      | Ok query =>
          let found := initial ∪ find_tables query (dialect self) in
          let final := found ∖ {[ name self ]} in
          let declared :=
            if shares_declared self then Some final else depends_on_ self in
          (Ok final, set_depends_on self declared (Some final), 1%nat)
      end
  end.

(** How [sorted] compares two items of the environment:
    by [(kind, name)]. *)
Definition env_le (x y : string * Executable) : Prop :=
  (kind_rank (kind x.2) < kind_rank (kind y.2))%nat
  ∨ (kind_rank (kind x.2) = kind_rank (kind y.2) ∧ string_le x.1 y.1).

#[global] Instance env_le_dec : RelDecision env_le.
Proof. intros x y. unfold env_le. apply _. Defined.

Definition sorted_python_env (self : t) : list (string * Executable) :=
  merge_sort env_le (map_to_list (python_env self)).

(** The query whose text is hashed:
    [self.query if self.hash_raw_query else self.render_query(self) or self.query] *)
Definition hashed_query (self : t) : Result Expression :=
  if hash_raw_query self then Ok (query self) else render_self self.

Definition metadata_data (self : t) (query_sql : string) : list (option string) :=
  [owner self; description self]
  ++ (Some <$> merge_sort string_le (tags self))
  ++ [Some (py_str_env (sorted_python_env self)); stamp self; Some query_sql].

Definition metadata_hash (self : t) (audits : gmap string ModelAudit.t)
    : Result string :=
  let* query := hashed_query self in
  Ok (hash_data (metadata_data self (sql query))).

(** [hash_data] of the empty string, which holds no item to hash. *)
Definition data_hash (self : t) : string := hash_data [].
End Methods.
End StandaloneAudit.

(** [sqlmesh.core.snapshot.Node]: a model or a standalone audit. *)
Inductive Node :=
| ModelNode (model : Model)
| AuditNode (audit : StandaloneAudit.t).

Definition Node_name (n : Node) : string :=
  match n with
  | ModelNode m => model_name m
  | AuditNode a => StandaloneAudit.name a
  end.

Section TextDiff.
Context `{Collaborators}.

(** Modelled from the spec: [d.text_diff] of [sqlmesh.core.dialect], which
    is not part of this module, as the unified line-level diff of the two
    queries' canonical SQL text in the given dialect. *)
Definition d_text_diff (a b : Expression) (dialect : string) : string :=
  unified_diff (canonical_sql a dialect) (canonical_sql b dialect).

Definition text_diff (self : StandaloneAudit.t) (other : Node) : Result string :=
  match other with
  | AuditNode other_audit =>
      Ok (d_text_diff (StandaloneAudit.query self)
            (StandaloneAudit.query other_audit) (StandaloneAudit.dialect self))
  | ModelNode _ =>
      Raise (CannotDiff (StandaloneAudit.name self) (Node_name other))
  end.
End TextDiff.

(** ** Notions the statements use *)

(** A block of a statement list: a definition header followed by
    statements that are no headers. *)
Definition header_block (block : list Expression) : bool :=
  match block with
  | [] => false
  | header :: statements =>
      is_Audit header && forallb (λ e, negb (is_Audit e)) statements
  end.

(** What a generator that yields the given results in turn produces before
    it ends: the values up to the first error, and that error. *)
Fixpoint yield_all {A} (results : list (Result A)) : list A * option Error :=
  match results with
  | [] => ([], None)
  | Ok a :: rest => let '(values, e) := yield_all rest in (a :: values, e)
  | Raise e :: _ => ([], Some e)
  end.

(** The location a configuration error of the loader carries. *)
Definition error_path (e : Error) : option Path :=
  match e with
  | IncompleteDefinition p | AuditStatementRequired p
  | MissingRequiredFields _ p | InvalidExtraFields _ p
  | MissingSelectQuery p | ConstructionFailed _ p => Some p
  | _ => None
  end.

(** [isinstance(e, exp.EQ)] *)
Definition is_EQ (e : Expression) : bool :=
  match e with EQ _ _ => true | _ => false end.

(** The pair an equality of a defaults tuple stands for. *)
Definition eq_sides (e : Expression) : option (string * Expression) :=
  match e with EQ l r => Some (expr_name l, r) | _ => None end.

(** The names a header declares, in order. *)
Definition header_names (props : list Expression) : list string :=
  expr_name <$> props.

(** A block with no header in front: empty, or starting with a statement
    that is no header. *)
Definition headless (block : list Expression) : bool :=
  match block with
  | [] => true
  | statement :: _ => negb (is_Audit statement)
  end.

(** The fields the metadata hash is a function of: owner, description,
    sorted tags, the string form of the sorted environment, stamp and
    query text. *)
Definition hash_inputs `{Collaborators} (self : StandaloneAudit.t) (query : Expression)
    : option string * option string * list string * string * option string * string :=
  (StandaloneAudit.owner self, StandaloneAudit.description self,
   merge_sort string_le (StandaloneAudit.tags self),
   py_str_env (StandaloneAudit.sorted_python_env self),
   StandaloneAudit.stamp self, sql query).

(** Modelled from the spec: the contract of [hash_data] of
    [sqlmesh.utils.hashing], which is not part of this module: a
    content-addressed hash, for which any change of the hashed sequence
    changes the output. *)
Definition content_addressed (hash : list (option string) → string) : Prop :=
  ∀ data1 data2, hash data1 = hash data2 → data1 = data2.

(** ** A concrete set of collaborators, and sample audits *)

Module Sample.

Definition parse_bool (v : Value) : option bool :=
  match v with
  | VBool b | VExpr (Boolean b) => Some b
  | VStr s =>
      if String.eqb (lower_ascii_text s) "true" then Some true
      else if String.eqb (lower_ascii_text s) "false" then Some false
      else None
  | _ => None
  end.

Definition parse_expression (v : Value) : option Expression :=
  match v with VExpr e => Some e | _ => None end.

(** Renders every query to itself, and a templated query to nothing. *)
Definition render (r : QueryRenderer) (args : RenderArgs) : option Expression :=
  match qr_query r with
  | JinjaQuery _ => None
  | q => Some q
  end.

Definition tables_of (e : Expression) (dialect : string) : gset string :=
  match e with
  | Select _ (Some (Table n)) _ => {[ n ]}
  | _ => ∅
  end.

Definition time_text (t : TimeLike) : string :=
  match t with
  | TimeStr s => s
  | TimeInt z | TimeStamp z => pretty z
  end.

Definition sql_text (e : Expression) : string :=
  match e with
  | Other s | JinjaQuery s => s
  | Select _ (Some (Table n)) _ => "SELECT * FROM " +:+ n
  | _ => "SELECT"
  end.

Definition rank (k : ExecutableKind) : nat :=
  match k with
  | ExecutableKind_ v =>
      if String.eqb v "import" then 0
      else if String.eqb v "value" then 1 else 2
  end.

Definition ideal_hash (data : list (option string)) : string :=
  pretty (encode data).

#[global] Instance collaborators : Collaborators :=
  {| bool_validator := parse_bool;
     expression_validator := parse_expression;
     jinja_macros_validator := λ _, None;
     py_str_dict := λ _, "{}";
     QueryRenderer_render := render;
     find_tables := tables_of;
     to_table := λ name _, Table name;
     quote_identifiers := λ e _, e;
     convert_to_time_column := λ _ t _, Literal (time_text t) true;
     EPOCH := TimeStamp 0;
     sql := sql_text;
     kind_rank := rank;
     py_str_env := λ items, String.concat "," (fst <$> items);
     hash_data := ideal_hash;
     unified_diff := λ a b, "-" +:+ a +:+ "+" +:+ b;
     canonical_sql := λ e _, sql_text e;
     unicode_lower := lower_ascii_text;
     breakpoint := Raise BdbQuit |}.

Definition select_orders : Expression :=
  Select [Star] (Some (Table "orders")) (Some (EQ (Column "id") (Literal "NULL" false))).

(** [AUDIT (name 'orders_not_null', blocking true)] *)
Definition orders_header : Expression :=
  Audit [Property "name" (Some (Literal "orders_not_null" true));
         Property "blocking" (Some (Boolean true))].

Definition orders_block : list Expression := [orders_header; select_orders].

(** A header followed by a statement that is no query. *)
Definition malformed_block : list Expression :=
  [Audit [Property "name" (Some (Literal "a" true))]; Other "DROP TABLE t"].

(** [StandaloneAudit(name=..., query=..., blocking=True)] and the same
    call without [blocking]. *)
Definition plain_kwargs : gmap string Value :=
  {[ "name" := VStr "Late_Orders"; "query" := VExpr select_orders ]}.



(** A second definition block, with a macro definition between header
    and query. *)
Definition totals_block : list Expression :=
  [Audit [Property "name" (Some (Literal "totals_positive" true));
          Property "skip" (Some (Boolean true))];
   MacroDef "threshold" (Literal "0" false);
   Select [Star] (Some (Table "totals")) None].

Definition orders_audit : ModelAudit.t :=
  {| ModelAudit.name := "orders_not_null"; ModelAudit.dialect := EmptyString;
     ModelAudit.skip := false; ModelAudit.blocking := true;
     ModelAudit.query := select_orders;
     ModelAudit.defaults := {[ "this_model" := Table "fallback" ]};
     ModelAudit.expressions_ :=
       Some [MacroDef "threshold" (Literal "0" false); Other "SET x = 1"];
     ModelAudit.jinja_macros := JinjaMacroRegistry_ [];
     ModelAudit._path := None |}.

(** An audit whose defaults name a parameter of [render]. *)
Definition start_default_audit : ModelAudit.t :=
  {| ModelAudit.name := "recent_orders"; ModelAudit.dialect := EmptyString;
     ModelAudit.skip := false; ModelAudit.blocking := true;
     ModelAudit.query := select_orders;
     ModelAudit.defaults := {[ "start" := Literal "2020-01-01" true ]};
     ModelAudit.expressions_ := None;
     ModelAudit.jinja_macros := JinjaMacroRegistry_ [];
     ModelAudit._path := None |}.

(** What a caller passes to replace the audited table. *)
Definition caller_kwargs : gmap string KwValue :=
  {[ "this_model" := KwExpr (Table "scratch.orders") ]}.

Definition no_args : StandaloneAudit.NodeArgs :=
  {| StandaloneAudit.arg_expressions := None;
     StandaloneAudit.arg_depends_on := None;
     StandaloneAudit.arg_hash_raw_query := None;
     StandaloneAudit.arg_python_env := None;
     StandaloneAudit.arg_owner := None;
     StandaloneAudit.arg_description := None;
     StandaloneAudit.arg_tags := None;
     StandaloneAudit.arg_stamp := None |}.

Definition standalone (name : string) (query : Expression)
    (depends : option (gset string)) : StandaloneAudit.t :=
  {| StandaloneAudit.name := name; StandaloneAudit.dialect := EmptyString;
     StandaloneAudit.skip := false; StandaloneAudit.blocking := false;
     StandaloneAudit.query := query; StandaloneAudit.defaults := ∅;
     StandaloneAudit.expressions_ := None;
     StandaloneAudit.jinja_macros := JinjaMacroRegistry_ [];
     StandaloneAudit.depends_on_ := depends;
     StandaloneAudit.hash_raw_query := false;
     StandaloneAudit.python_env_ := None;
     StandaloneAudit.owner := None; StandaloneAudit.description := None;
     StandaloneAudit.tags := []; StandaloneAudit.stamp := None;
     StandaloneAudit._path := None; StandaloneAudit._depends_on := None |}.

(** A standalone audit that names itself among its dependencies. *)
Definition late_orders : StandaloneAudit.t :=
  standalone "late_orders" select_orders (Some {[ "late_orders"; "customers" ]}).

(** A standalone audit, declared to depend on itself, whose query is a
    template the sample renderer cannot render. *)
Definition templated_audit : StandaloneAudit.t :=
  standalone "late_orders" (JinjaQuery "SELECT * FROM {{ t }}")
    (Some {[ "late_orders" ]}).

Definition owned_by (owner : string) : StandaloneAudit.t :=
  {| StandaloneAudit.name := "late_orders"; StandaloneAudit.dialect := EmptyString;
     StandaloneAudit.skip := false; StandaloneAudit.blocking := false;
     StandaloneAudit.query := select_orders; StandaloneAudit.defaults := ∅;
     StandaloneAudit.expressions_ := None;
     StandaloneAudit.jinja_macros := JinjaMacroRegistry_ [];
     StandaloneAudit.depends_on_ := None;
     StandaloneAudit.hash_raw_query := true;
     StandaloneAudit.python_env_ := None;
     StandaloneAudit.owner := Some owner; StandaloneAudit.description := None;
     StandaloneAudit.tags := ["nightly"; "finance"]; StandaloneAudit.stamp := None;
     StandaloneAudit._path := None; StandaloneAudit._depends_on := None |}.

(** The same audit under another name, with its tags in another order. *)
Definition retagged (audit : StandaloneAudit.t) : StandaloneAudit.t :=
  {| StandaloneAudit.name := "renamed";
     StandaloneAudit.dialect := "spark";
     StandaloneAudit.skip := StandaloneAudit.skip audit;
     StandaloneAudit.blocking := StandaloneAudit.blocking audit;
     StandaloneAudit.query := StandaloneAudit.query audit;
     StandaloneAudit.defaults := StandaloneAudit.defaults audit;
     StandaloneAudit.expressions_ := StandaloneAudit.expressions_ audit;
     StandaloneAudit.jinja_macros := StandaloneAudit.jinja_macros audit;
     StandaloneAudit.depends_on_ := StandaloneAudit.depends_on_ audit;
     StandaloneAudit.hash_raw_query := StandaloneAudit.hash_raw_query audit;
     StandaloneAudit.python_env_ := StandaloneAudit.python_env_ audit;
     StandaloneAudit.owner := StandaloneAudit.owner audit;
     StandaloneAudit.description := StandaloneAudit.description audit;
     StandaloneAudit.tags := ["finance"; "nightly"];
     StandaloneAudit.stamp := StandaloneAudit.stamp audit;
     StandaloneAudit._path := StandaloneAudit._path audit;
     StandaloneAudit._depends_on := StandaloneAudit._depends_on audit |}.

Definition plain_model (time : option TimeColumn) : Model :=
  {| model_name := "db.orders"; model_dialect := "duckdb";
     time_column := time; model_python_env := ∅;
     only_execution_time := false |}.
End Sample.

(** ** Properties of the loader *)

Section LoaderProperties.
Context `{Collaborators}.

Lemma bind_Ok {A B} (r : Result A) (k : A → Result B) (b : B) :
  bind r k = Ok b → ∃ a, r = Ok a ∧ k a = Ok b.
Proof. destruct r as [a|e]; simpl; [eauto | discriminate]. Qed.

Lemma length_lt_2 {A} (x : A) (rest : list A) :
  rest ≠ [] → (length (x :: rest) <? 2)%nat = false.
Proof. destruct rest; [congruence | reflexivity]. Qed.

(** What [load] does with a block of at least two statements that starts
    with a header. *)
Lemma load_header_block (props rest : list Expression) (path : Path)
    (dialect : option string) :
  rest ≠ [] →
  ModelAudit.load (Audit props :: rest) path dialect =
    let provided := ModelAudit.provided_meta_fields props in
    let missing := ModelAudit.missing_required_fields provided in
    let extra := ModelAudit.extra_fields provided in
    let query := List.last rest (Audit props) in
    if bool_decide (missing ≠ ∅)
    then let* _ := breakpoint in Raise (MissingRequiredFields missing path)
    else if bool_decide (extra ≠ ∅) then Raise (InvalidExtraFields extra path)
    else if negb (is_Subqueryable query) then Raise (MissingSelectQuery path)
    else match ModelAudit.construct query (removelast rest)
                 (ModelAudit.meta_kwargs props dialect) with
         | Raise ex => Raise (ConstructionFailed ex path)
         | Ok audit => Ok (ModelAudit.set_path audit path)
         end.
Proof.
  intros Hrest. unfold ModelAudit.load.
  rewrite (length_lt_2 _ _ Hrest). reflexivity.
Qed.

(** C2, as amended: for a block of at least two statements that starts
    with a header providing the field names [P] (with [query] added),
    [load] succeeds only if [required − P] and [P − (required ∪ optional)]
    are both empty; with [required − P] empty, a non-empty
    [P − (required ∪ optional)] raises the configuration error that names
    it; and when both are empty [load] succeeds exactly when the last
    statement is a SELECT and the construction of the definition
    succeeds.  With a non-empty [required − P] the branch calls the
    debugger before its [raise]: [load] never succeeds there, it raises
    what the debugger raises, and the configuration error that names the
    missing fields when the debugger returns. *)
Theorem load_field_schema (props rest : list Expression) (path : Path)
    (dialect : option string) :
  rest ≠ [] →
  let P := ModelAudit.provided_meta_fields props in
  let missing := ModelAudit.required_fields ∖ P in
  let extra := P ∖ (ModelAudit.required_fields ∪ ModelAudit.optional_fields) in
  let result := ModelAudit.load (Audit props :: rest) path dialect in
  (is_Ok result = true → missing = ∅ ∧ extra = ∅)
  ∧ (missing ≠ ∅ →
       is_Ok result = false
       ∧ (∀ e, breakpoint = Raise e → result = Raise e)
       ∧ (breakpoint = Ok tt →
          result = Raise (MissingRequiredFields missing path)
          ∧ error_class (MissingRequiredFields missing path) = AuditConfigErrorC))
  ∧ (missing = ∅ → extra ≠ ∅ →
       result = Raise (InvalidExtraFields extra path)
       ∧ error_class (InvalidExtraFields extra path) = AuditConfigErrorC)
  ∧ (missing = ∅ → extra = ∅ →
       is_Ok result =
         is_Subqueryable (List.last rest (Audit props))
         && is_Ok (ModelAudit.construct (List.last rest (Audit props))
                     (removelast rest) (ModelAudit.meta_kwargs props dialect))).
Proof.
  intros Hrest P missing extra result.
  unfold result. rewrite (load_header_block _ _ _ _ Hrest).
  fold P. unfold ModelAudit.missing_required_fields, ModelAudit.extra_fields.
  fold missing extra. cbv zeta.
  split; [|split; [|split]].
  - destruct (bool_decide_reflect (missing ≠ ∅)) as [|Hm];
      [by destruct breakpoint|].
    destruct (bool_decide_reflect (extra ≠ ∅)) as [|He]; [discriminate|].
    intros _. split; by apply dec_stable.
  - intros Hm. rewrite bool_decide_eq_true_2 by done.
    split; [by destruct breakpoint|]. split.
    + by intros e ->.
    + by intros ->.
  - intros Hm He. rewrite bool_decide_eq_false_2 by (intros Hn; by apply Hn).
    by rewrite bool_decide_eq_true_2.
  - intros Hm He.
    rewrite bool_decide_eq_false_2 by (intros Hn; by apply Hn).
    rewrite bool_decide_eq_false_2 by (intros Hn; by apply Hn).
    destruct (is_Subqueryable _); simpl; [|reflexivity].
    by destruct (ModelAudit.construct _ _ _).
Qed.
End LoaderProperties.

(** A block whose header provides every required field and no unknown one,
    and whose last statement is not a SELECT: both sets are empty and
    [load] fails. *)
Lemma load_iff_counterexample :
  ¬ (is_Ok (ModelAudit.load (H:=Sample.collaborators) Sample.malformed_block "a.sql" None) = true
     ↔ ModelAudit.missing_required_fields
         (ModelAudit.provided_meta_fields
            [Property "name" (Some (Literal "a" true))]) = ∅
       ∧ ModelAudit.extra_fields
           (ModelAudit.provided_meta_fields
              [Property "name" (Some (Literal "a" true))]) = ∅).
Proof.
  intros [_ Hback].
  assert (is_Ok (ModelAudit.load (H:=Sample.collaborators) Sample.malformed_block "a.sql" None)
          = false) as Hfail by (vm_compute; reflexivity).
  rewrite Hback in Hfail; [discriminate|].
  split; vm_compute; reflexivity.
Qed.

Lemma load_field_schema_witness :
  is_Ok (ModelAudit.load (H:=Sample.collaborators) Sample.orders_block "a.sql"
           (Some "snowflake")) = true
  ∧ is_Ok (ModelAudit.load (H:=Sample.collaborators)
             [Audit []; Sample.select_orders] "a.sql" None) = false.
Proof.
  split.
  - destruct (load_field_schema (H:=Sample.collaborators)
                [Property "name" (Some (Literal "orders_not_null" true));
                 Property "blocking" (Some (Boolean true))]
                [Sample.select_orders] "a.sql" (Some "snowflake")) as (_ & _ & _ & Hok).
    { discriminate. }
    unfold Sample.orders_block, Sample.orders_header.
    rewrite Hok; vm_compute; reflexivity.
  - destruct (load_field_schema (H:=Sample.collaborators)
                [] [Sample.select_orders] "a.sql" None) as (_ & Hmiss & _).
    { discriminate. }
    destruct Hmiss as [Hmiss _]; [vm_compute; discriminate|].
    exact Hmiss.
Defined.

Section LoadExample.
Context `{Collaborators}.

(** C7, as amended: loading the block whose header declares
    [name 'orders_not_null', blocking true] and no dialect, with the
    loader default dialect [snowflake], yields a definition with
    [blocking = true] and with the loader's default as its dialect,
    [dialect = snowflake]. *)
Theorem load_orders_not_null (q : Expression) (path : Path) :
  is_Subqueryable q = true →
  bool_validator (VExpr (Boolean true)) = Some true →
  expression_validator (VExpr q) = Some q →
  ModelAudit.load [Sample.orders_header; q] path (Some "snowflake")
  = Ok {| ModelAudit.name := "orders_not_null";
          ModelAudit.dialect := "snowflake";
          ModelAudit.skip := false;
          ModelAudit.blocking := true;
          ModelAudit.query := q;
          ModelAudit.defaults := ∅;
          ModelAudit.expressions_ := Some [];
          ModelAudit.jinja_macros := JinjaMacroRegistry_ [];
          ModelAudit._path := Some path |}.
Proof.
  intros Hq Hbool Hexpr.
  unfold Sample.orders_header. rewrite load_header_block by discriminate.
  destruct q; try discriminate Hq.
  destruct H. simpl in Hbool, Hexpr.
  vm_compute. vm_compute in Hbool, Hexpr.
  rewrite Hbool, Hexpr. reflexivity.
Qed.
End LoadExample.

Lemma load_orders_not_null_witness :
  ModelAudit.load (H:=Sample.collaborators)
    [Sample.orders_header; Sample.select_orders] "audits/orders.sql" (Some "snowflake")
  = Ok {| ModelAudit.name := "orders_not_null";
          ModelAudit.dialect := "snowflake";
          ModelAudit.skip := false;
          ModelAudit.blocking := true;
          ModelAudit.query := Sample.select_orders;
          ModelAudit.defaults := ∅;
          ModelAudit.expressions_ := Some [];
          ModelAudit.jinja_macros := JinjaMacroRegistry_ [];
          ModelAudit._path := Some "audits/orders.sql" |}.
Proof. apply load_orders_not_null; reflexivity. Defined.

(** The loaded definition does not have the empty dialect: it has the
    loader's default. *)
Lemma load_orders_not_null_counterexample :
  ¬ ∃ audit,
      ModelAudit.load (H:=Sample.collaborators) Sample.orders_block
        "audits/orders.sql" (Some "snowflake") = Ok audit
      ∧ ModelAudit.dialect audit = EmptyString
      ∧ ModelAudit.blocking audit = true.
Proof.
  intros (audit & Hload & Hdialect & _).
  vm_compute in Hload. injection Hload as <-. discriminate Hdialect.
Qed.

(** ** Construction of a standalone audit *)

Section Construction.
Context `{Collaborators}.


End Construction.


(** ** Splitting a statement list into definitions *)

Section YieldAll.
Context {A : Type}.
Implicit Types results : list (Result A).

Lemma yield_all_length results :
  (length (yield_all results).1 ≤ length results)%nat.
Proof.
  induction results as [|[a|e] results IH]; simpl; try lia.
  destruct (yield_all results); simpl in *. lia.
Qed.

Lemma yield_all_lookup results (i : nat) (a : A) :
  (yield_all results).1 !! i = Some a → results !! i = Some (Ok a).
Proof.
  revert i. induction results as [|[a'|e] results IH]; intros i; simpl.
  - by rewrite lookup_nil.
  - destruct (yield_all results) as [values err]; simpl in *.
    destruct i as [|i]; simpl; [congruence | apply IH].
  - by rewrite lookup_nil.
Qed.

Lemma yield_all_raise results (i : nat) (e : Error) :
  results !! i = Some (Raise e) →
  (length (yield_all results).1 ≤ i)%nat ∧ is_Some (yield_all results).2.
Proof.
  revert i. induction results as [|[a'|e'] results IH]; intros i; simpl.
  - by rewrite lookup_nil.
  - destruct i as [|i]; simpl; [discriminate|]. intros Hi.
    destruct (IH i Hi) as [Hlen Herr].
    destruct (yield_all results) as [values err]; simpl in *. split; [lia|done].
  - intros _. split; [lia | eauto].
Qed.

Lemma yield_all_Ok results :
  Forall (λ r, is_Ok r = true) results →
  length (yield_all results).1 = length results ∧ (yield_all results).2 = None.
Proof.
  induction 1 as [|[a|e] results Hr _ [IHlen IHerr]]; simpl; [done| |discriminate].
  destruct (yield_all results) as [values err]; simpl in *. split; [lia|done].
Qed.
End YieldAll.

Section LoadMultiple.
Context `{Collaborators}.
Variables (path : Path) (dialect : option string).

(** Statements that are no headers extend the block being collected. *)
Lemma load_multiple_from_statements (statements tail audit_block : list Expression) :
  forallb (λ e, negb (is_Audit e)) statements = true →
  ModelAudit.load_multiple_from audit_block (statements ++ tail) path dialect
  = ModelAudit.load_multiple_from (audit_block ++ statements) tail path dialect.
Proof.
  revert audit_block.
  induction statements as [|e statements IH]; intros audit_block Hs; simpl.
  - by rewrite app_nil_r.
  - simpl in Hs. apply andb_true_iff in Hs as [He Hs].
    apply negb_true_iff in He. rewrite He. simpl.
    rewrite IH by done. by rewrite <- app_assoc.
Qed.

(** With a block already being collected, every further block closes it. *)
Lemma load_multiple_from_blocks (blocks : list (list Expression))
    (audit_block : list Expression) :
  audit_block ≠ [] →
  Forall (λ b, header_block b = true) blocks →
  ModelAudit.load_multiple_from audit_block (concat blocks) path dialect
  = yield_all (ModelAudit.load audit_block path dialect
               :: ((λ b, ModelAudit.load b path dialect) <$> blocks)).
Proof.
  intros Hne Hblocks. revert audit_block Hne.
  induction Hblocks as [|block blocks Hblock _ IH]; intros audit_block Hne.
  - simpl. by destruct (ModelAudit.load _ _ _).
  - destruct block as [|header statements]; [discriminate|].
    simpl in Hblock. apply andb_true_iff in Hblock as [Hh Hs].
    cbn [concat app ModelAudit.load_multiple_from].
    rewrite Hh. destruct audit_block as [|a0 audit_block]; [done|].
    cbn [andb]. cbn [fmap list_fmap yield_all].
    destruct (ModelAudit.load (a0 :: audit_block) path dialect) as [audit|e];
      [|reflexivity].
    rewrite load_multiple_from_statements by done.
    change ([header] ++ statements)%list with (header :: statements).
    rewrite (IH (header :: statements)) by done.
    reflexivity.
Qed.

(** C5: on a statement list made of [N] blocks, each starting with a
    definition header, [load_multiple] yields what loading the blocks one
    after the other yields up to the first block that fails to load, the
    i-th definition being loaded from exactly the i-th block: at most [N]
    definitions, none after a failure, and exactly [N] and no error when
    every block loads. *)
Theorem load_multiple_blocks (blocks : list (list Expression)) :
  blocks ≠ [] →
  Forall (λ b, header_block b = true) blocks →
  let result := ModelAudit.load_multiple (concat blocks) path dialect in
  result = yield_all ((λ b, ModelAudit.load b path dialect) <$> blocks)
  ∧ (length result.1 ≤ length blocks)%nat
  ∧ (∀ i audit, result.1 !! i = Some audit →
       ∃ block, blocks !! i = Some block
                ∧ ModelAudit.load block path dialect = Ok audit)
  ∧ (∀ i block e, blocks !! i = Some block →
       ModelAudit.load block path dialect = Raise e →
       (length result.1 ≤ i)%nat ∧ is_Some result.2)
  ∧ (Forall (λ b, is_Ok (ModelAudit.load b path dialect) = true) blocks →
       length result.1 = length blocks ∧ result.2 = None).
Proof.
  intros Hne Hblocks result.
  assert (result = yield_all ((λ b, ModelAudit.load b path dialect) <$> blocks))
    as Hres.
  { unfold result, ModelAudit.load_multiple.
    destruct blocks as [|block blocks]; [done|].
    inversion Hblocks as [|? ? Hblock Hrest]; subst.
    destruct block as [|header statements]; [discriminate|].
    simpl in Hblock. apply andb_true_iff in Hblock as [Hh Hs].
    cbn [concat app ModelAudit.load_multiple_from].
    rewrite andb_false_r.
    rewrite load_multiple_from_statements by done.
    rewrite load_multiple_from_blocks by done.
    reflexivity. }
  split; [exact Hres|]. rewrite Hres. clear.
  split; [|split; [|split]].
  - etransitivity; [apply yield_all_length|]. by rewrite length_fmap.
  - intros i audit Hi. apply yield_all_lookup in Hi.
    rewrite list_lookup_fmap in Hi.
    destruct (blocks !! i) as [block|]; [|discriminate].
    exists block. split; [done|]. simpl in Hi. congruence.
  - intros i block e Hi He. apply (yield_all_raise _ i e).
    rewrite list_lookup_fmap, Hi. simpl. by rewrite He.
  - intros Hall.
    destruct (yield_all_Ok ((λ b, ModelAudit.load b path dialect) <$> blocks))
      as [Hlen Herr].
    { by apply Forall_fmap. }
    rewrite length_fmap in Hlen. done.
Qed.
End LoadMultiple.

Lemma load_multiple_blocks_witness :
  length (ModelAudit.load_multiple (H:=Sample.collaborators)
            (Sample.orders_block ++ Sample.totals_block) "audits.sql" None).1 = 2%nat
  ∧ (ModelAudit.load_multiple (H:=Sample.collaborators)
       (Sample.orders_block ++ Sample.totals_block) "audits.sql" None).2 = None.
Proof.
  destruct (load_multiple_blocks (H:=Sample.collaborators) "audits.sql" None
              [Sample.orders_block; Sample.totals_block])
    as (_ & _ & _ & _ & Hall).
  - discriminate.
  - repeat constructor.
  - apply Hall. repeat constructor.
Defined.

(** ** Rendering *)

Section Rendering.
Context `{Collaborators}.

Lemma render_context_lookup (self : ModelAudit.t)
    (snapshot_or_node : SnapshotOrNode Model) (start end_ : option TimeLike)
    (is_dev : bool) (kwargs : gmap string KwValue) (key : string) :
  ModelAudit.render_context self snapshot_or_node start end_ is_dev kwargs !! key
  = match kwargs !! key with
    | Some value => Some value
    | None =>
        if decide (key = "this_model")
        then Some (KwExpr (ModelAudit.this_model_subquery self snapshot_or_node
                             start end_ is_dev kwargs))
        else KwExpr <$> ModelAudit.defaults self !! key
    end.
Proof.
  unfold ModelAudit.render_context, AuditMixin.merged_kwargs,
    ModelAudit.super_kwargs, ModelAudit.extra_kwargs.
  rewrite !lookup_union, lookup_fmap. simpl.
  destruct (kwargs !! key) as [value|]; simpl.
  - by destruct ({[_ := _]} !! key), (KwExpr <$> ModelAudit.defaults self !! key).
  - destruct (decide (key = "this_model")) as [->|Hne].
    + rewrite lookup_singleton_eq. simpl.
      by destruct (KwExpr <$> ModelAudit.defaults self !! "this_model").
    + rewrite lookup_singleton_ne by done. simpl.
      by destruct (KwExpr <$> ModelAudit.defaults self !! key).
Qed.

(** C6, as amended: the keyword context that reaches the renderer is
    [{**defaults, **{this_model: subquery}, **caller_kwargs}]: for every
    key the caller's value wins, also for [this_model]; without a caller
    value the synthesized subquery is used for [this_model], whatever
    the defaults declare; every other key falls back to the defaults. *)
Theorem render_context_precedence (self : ModelAudit.t)
    (snapshot_or_node : SnapshotOrNode Model)
    (start end_ execution_time : option TimeLike)
    (snapshots : option Snapshots) (is_dev : bool)
    (kwargs : gmap string KwValue) (key : string) :
  ra_kwargs (AuditMixin.render_args self start end_ execution_time snapshots is_dev
               (ModelAudit.super_kwargs self snapshot_or_node start end_ is_dev kwargs))
  = ModelAudit.render_context self snapshot_or_node start end_ is_dev kwargs
  ∧ ModelAudit.render_context self snapshot_or_node start end_ is_dev kwargs !! key
    = match kwargs !! key with
      | Some value => Some value
      | None =>
          if decide (key = "this_model")
          then Some (KwExpr (ModelAudit.this_model_subquery self snapshot_or_node
                               start end_ is_dev kwargs))
          else KwExpr <$> ModelAudit.defaults self !! key
      end.
Proof. split; [reflexivity | apply render_context_lookup]. Qed.

(** C8: the synthesized this-model subquery is
    [SELECT * FROM <quoted table>] with no predicate when the node
    declares no time column, and with the predicate
    [column BETWEEN convert(start or EPOCH) AND convert(end or EPOCH)] over
    exactly the declared column when it declares one; it is what the
    renderer receives as [this_model] unless the caller passes one. *)
Theorem this_model_time_predicate (self : ModelAudit.t)
    (snapshot_or_node : SnapshotOrNode Model) (start end_ : option TimeLike)
    (is_dev : bool) (kwargs : gmap string KwValue) :
  let node := AuditMixin.resolve_node snapshot_or_node in
  let this_model := ModelAudit.this_model_name snapshot_or_node is_dev in
  let types := ModelAudit.columns_to_types kwargs this_model in
  let table :=
    quote_identifiers (to_table this_model (ModelAudit.dialect self))
      (ModelAudit.dialect self) in
  let subquery :=
    ModelAudit.this_model_subquery self snapshot_or_node start end_ is_dev kwargs in
  (time_column node = None →
     subquery = Subquery (Select [Star] (Some table) None))
  ∧ (∀ tc, time_column node = Some tc →
       subquery =
         Subquery (Select [Star] (Some table)
           (Some (Between (Column (column tc))
                    (convert_to_time_column node (ModelAudit.or_epoch start) types)
                    (convert_to_time_column node (ModelAudit.or_epoch end_) types)))))
  ∧ (kwargs !! "this_model" = None →
       ModelAudit.render_context self snapshot_or_node start end_ is_dev kwargs
         !! "this_model" = Some (KwExpr subquery))
  ∧ ModelAudit.or_epoch None = EPOCH
  ∧ (∀ t, ModelAudit.or_epoch (Some t) = if time_truthy t then t else EPOCH).
Proof.
  intros node this_model types table subquery.
  unfold subquery, ModelAudit.this_model_subquery, ModelAudit.time_predicate.
  fold node this_model types table.
  split; [|split; [|split; [|split]]].
  - by intros ->.
  - by intros tc ->.
  - intros Hk.
    rewrite render_context_lookup, Hk. by rewrite decide_True.
  - reflexivity.
  - reflexivity.
Qed.

(** C10: the renderer of a ModelAudit and the renderer of a
    StandaloneAudit receive as macro definitions exactly the extra
    statements that are macro definitions, in their order; an extra
    statement of any other kind is not among them. *)
Theorem only_macro_definitions_rendered :
  (∀ (self : ModelAudit.t) (model : Model),
     qr_macro_definitions (ModelAudit._create_query_renderer self model)
     = List.filter is_MacroDef (default [] (ModelAudit.expressions_ self)))
  ∧ (∀ (self node : StandaloneAudit.t),
       qr_macro_definitions (StandaloneAudit._create_query_renderer self node)
       = List.filter is_MacroDef (default [] (StandaloneAudit.expressions_ self)))
  ∧ (∀ (self : ModelAudit.t) (model : Model) (statement : Expression),
       In statement (qr_macro_definitions (ModelAudit._create_query_renderer self model))
       ↔ In statement (AuditMixin.expressions self) ∧ is_MacroDef statement = true)
  ∧ (∀ (self node : StandaloneAudit.t) (statement : Expression),
       In statement
         (qr_macro_definitions (StandaloneAudit._create_query_renderer self node))
       ↔ In statement (AuditMixin.expressions self) ∧ is_MacroDef statement = true).
Proof.
  split; [reflexivity|]. split; [reflexivity|].
  split; intros; apply filter_In.
Qed.
End Rendering.

Lemma this_model_time_predicate_witness :
  ModelAudit.this_model_subquery (H:=Sample.collaborators) Sample.orders_audit
    (ANode (Sample.plain_model None)) None None false ∅
  = Subquery (Select [Star] (Some (Table "db.orders")) None)
  ∧ ModelAudit.this_model_subquery (H:=Sample.collaborators) Sample.orders_audit
      (ANode (Sample.plain_model (Some {| column := "ds"; format := None |})))
      (Some (TimeInt 1000)) None false ∅
    = Subquery (Select [Star] (Some (Table "db.orders"))
        (Some (Between (Column "ds") (Literal "1000" true) (Literal "0" true)))).
Proof.
  split.
  - destruct (this_model_time_predicate (H:=Sample.collaborators) Sample.orders_audit
                (ANode (Sample.plain_model None)) None None false ∅) as [Hnone _].
    apply Hnone. reflexivity.
  - destruct (this_model_time_predicate (H:=Sample.collaborators) Sample.orders_audit
                (ANode (Sample.plain_model (Some {| column := "ds"; format := None |})))
                (Some (TimeInt 1000)) None false ∅) as (_ & Hsome & _).
    rewrite (Hsome _ eq_refl). reflexivity.
Defined.

(** A caller that passes [this_model] replaces the synthesized subquery. *)
Lemma render_context_counterexample :
  ModelAudit.render_context (H:=Sample.collaborators) Sample.orders_audit
    (ANode (Sample.plain_model None)) None None false Sample.caller_kwargs !! "this_model"
  ≠ Some (KwExpr (ModelAudit.this_model_subquery (H:=Sample.collaborators)
                    Sample.orders_audit (ANode (Sample.plain_model None))
                    None None false Sample.caller_kwargs)).
Proof.
  rewrite render_context_lookup. vm_compute. discriminate.
Qed.

(** ** The dependency cache *)

Section DependsOn.
Context `{Collaborators}.

(** Rendering does not read the dependency fields. *)
Lemma render_self_set_depends_on (self : StandaloneAudit.t)
    (declared cache : option (gset string)) :
  StandaloneAudit.render_self (StandaloneAudit.set_depends_on self declared cache)
  = StandaloneAudit.render_self self.
Proof. reflexivity. Qed.

(** Once the cache is set, an access returns it and renders nothing. *)
Lemma depends_on_cached (self : StandaloneAudit.t) (cached : gset string) :
  StandaloneAudit._depends_on self = Some cached →
  StandaloneAudit.depends_on self = (Ok cached, self, 0%nat).
Proof. intros Hc. unfold StandaloneAudit.depends_on. by rewrite Hc. Qed.

(** When rendering fails, the access raises, and the cache already holds
    the declared set. *)
Lemma depends_on_render_failure (self : StandaloneAudit.t) (e : Error) :
  StandaloneAudit._depends_on self = None →
  StandaloneAudit.render_self self = Raise e →
  ∃ self',
    StandaloneAudit.depends_on self = (Raise e, self', 1%nat)
    ∧ StandaloneAudit._depends_on self'
      = Some (default ∅ (StandaloneAudit.depends_on_ self)).
Proof.
  intros Hc Hr. unfold StandaloneAudit.depends_on.
  rewrite Hc, render_self_set_depends_on, Hr. eauto.
Qed.
End DependsOn.

(** C3: the code at an input where it departs from the claim.  The audit
    [late_orders] declares a dependency on itself and its query does not
    render.  The first access of [depends_on] raises the rendering error
    after one rendering, with the cache already set: the second access
    renders nothing and returns the declared set, which still holds the
    audit's own name and so is not the declared set united with any found
    tables minus that name. *)
Theorem depends_on_failed_render_cached :
  ∃ self',
    StandaloneAudit.depends_on (H:=Sample.collaborators) Sample.templated_audit
    = (Raise (RenderFailed "late_orders" "late_orders"), self', 1%nat)
    ∧ StandaloneAudit.depends_on (H:=Sample.collaborators) self'
      = (Ok {[ "late_orders" ]}, self', 0%nat)
    ∧ StandaloneAudit.name self' = "late_orders"
    ∧ StandaloneAudit.depends_on_ self' = Some {[ "late_orders" ]}
    ∧ ∀ found : gset string,
        ({[ "late_orders" ]} : gset string)
        ≠ ({[ "late_orders" ]} ∪ found) ∖ {[ "late_orders" ]}.
Proof.
  destruct (depends_on_render_failure (H:=Sample.collaborators) Sample.templated_audit
              (RenderFailed "late_orders" "late_orders") eq_refl eq_refl)
    as (self' & Hfirst & Hcache).
  exists self'. split; [exact Hfirst|].
  split; [apply depends_on_cached; exact Hcache|].
  assert (self' = StandaloneAudit.set_depends_on Sample.templated_audit
                    (Some {[ "late_orders" ]}) (Some {[ "late_orders" ]})) as ->.
  { unfold StandaloneAudit.depends_on in Hfirst. simpl in Hfirst.
    by injection Hfirst as <-. }
  split; [reflexivity|]. split; [reflexivity|].
  intros found Heq.
  assert ("late_orders" ∈ ({[ "late_orders" ]} : gset string)) as Hin
    by (by apply elem_of_singleton).
  rewrite Heq in Hin. apply elem_of_difference in Hin as [_ Hout].
  apply Hout. by apply elem_of_singleton.
Qed.

(** ** Text diff *)

Section TextDiffProperties.
Context `{Collaborators}.

(** C9: [text_diff] raises an error when the other node is not a
    standalone audit (the receiver is one by its type), and otherwise
    returns the unified diff of the canonical SQL text of the two raw
    queries, both taken in the receiver's dialect. *)
Theorem text_diff_standalone_only (self : StandaloneAudit.t) :
  (∀ model : Model,
     text_diff self (ModelNode model)
     = Raise (CannotDiff (StandaloneAudit.name self) (model_name model))
     ∧ error_class (CannotDiff (StandaloneAudit.name self) (model_name model))
       = SQLMeshErrorC)
  ∧ (∀ other : StandaloneAudit.t,
       text_diff self (AuditNode other)
       = Ok (unified_diff
               (canonical_sql (StandaloneAudit.query self) (StandaloneAudit.dialect self))
               (canonical_sql (StandaloneAudit.query other)
                  (StandaloneAudit.dialect self)))).
Proof. split; intros; [split|]; reflexivity. Qed.
End TextDiffProperties.

(** ** The metadata hash *)

Lemma string_le_total : Total string_le.
Proof. intros x y. unfold string_le. apply String.leb_total. Qed.

Section MetadataHash.
Context `{Collaborators}.

Lemma env_le_total : Total StandaloneAudit.env_le.
Proof.
  intros x y. unfold StandaloneAudit.env_le.
  destruct (lt_eq_lt_dec (kind_rank (kind x.2)) (kind_rank (kind y.2)))
    as [[Hlt|Heq]|Hgt].
  - left. by left.
  - destruct (string_le_total x.1 y.1) as [Hle|Hle].
    + left. right. done.
    + right. right. done.
  - right. by left.
Qed.

(** The hashed list determines the fields it is built from. *)
Lemma metadata_data_inj (self1 self2 : StandaloneAudit.t) (q1 q2 : Expression) :
  StandaloneAudit.metadata_data self1 (sql q1)
  = StandaloneAudit.metadata_data self2 (sql q2) →
  hash_inputs self1 q1 = hash_inputs self2 q2.
Proof.
  unfold StandaloneAudit.metadata_data, hash_inputs. simpl.
  intros [= Ho Hd Hrest].
  apply app_inj_2 in Hrest as [Htags Hlast]; [|reflexivity].
  injection Hlast as He Hs Hq.
  apply (inj (fmap Some)) in Htags. congruence.
Qed.

(** C4: [metadata_hash] hashes, in this order, owner, description, the
    sorted tags, the string form of the environment sorted by (kind, name),
    the stamp and the SQL text of the raw query when [hash_raw_query] is
    set and of the rendered query otherwise; equal fields give equal
    hashes; and with a content-addressed [hash_data], a change of any of
    these fields changes the hash. *)
Theorem metadata_hash_deterministic (self1 self2 : StandaloneAudit.t)
    (audits1 audits2 : gmap string ModelAudit.t) (q1 q2 : Expression) :
  StandaloneAudit.hashed_query self1 = Ok q1 →
  StandaloneAudit.hashed_query self2 = Ok q2 →
  StandaloneAudit.metadata_hash self1 audits1
  = Ok (hash_data
          ([StandaloneAudit.owner self1; StandaloneAudit.description self1]
           ++ (Some <$> merge_sort string_le (StandaloneAudit.tags self1))
           ++ [Some (py_str_env (StandaloneAudit.sorted_python_env self1));
               StandaloneAudit.stamp self1; Some (sql q1)]))
  ∧ StandaloneAudit.hashed_query self1
    = (if StandaloneAudit.hash_raw_query self1
       then Ok (StandaloneAudit.query self1)
       else StandaloneAudit.render_self self1)
  ∧ Sorted string_le (merge_sort string_le (StandaloneAudit.tags self1))
  ∧ merge_sort string_le (StandaloneAudit.tags self1) ≡ₚ StandaloneAudit.tags self1
  ∧ Sorted StandaloneAudit.env_le (StandaloneAudit.sorted_python_env self1)
  ∧ StandaloneAudit.sorted_python_env self1
    ≡ₚ map_to_list (StandaloneAudit.python_env self1)
  ∧ (hash_inputs self1 q1 = hash_inputs self2 q2 →
     StandaloneAudit.metadata_hash self1 audits1
     = StandaloneAudit.metadata_hash self2 audits2)
  ∧ (content_addressed hash_data →
     hash_inputs self1 q1 ≠ hash_inputs self2 q2 →
     StandaloneAudit.metadata_hash self1 audits1
     ≠ StandaloneAudit.metadata_hash self2 audits2).
Proof.
  intros Hq1 Hq2.
  assert (∀ self audits q, StandaloneAudit.hashed_query self = Ok q →
            StandaloneAudit.metadata_hash self audits
            = Ok (hash_data (StandaloneAudit.metadata_data self (sql q)))) as Hhash.
  { intros self audits q Hq. unfold StandaloneAudit.metadata_hash. by rewrite Hq. }
  split; [by rewrite (Hhash _ _ _ Hq1)|].
  split; [reflexivity|].
  split; [apply (@Sorted_merge_sort _ _ _ string_le_total)|].
  split; [apply merge_sort_Permutation|].
  split; [apply (@Sorted_merge_sort _ _ _ env_le_total)|].
  split; [apply merge_sort_Permutation|].
  rewrite (Hhash _ _ _ Hq1), (Hhash _ _ _ Hq2).
  split.
  - unfold hash_inputs, StandaloneAudit.metadata_data.
    intros [= -> -> -> -> -> ->]. reflexivity.
  - intros Hinj Hne [= Heq]. apply Hne, metadata_data_inj, Hinj, Heq.
Qed.
End MetadataHash.

Lemma ideal_hash_content_addressed : content_addressed Sample.ideal_hash.
Proof.
  intros data1 data2 Heq. unfold Sample.ideal_hash in Heq.
  apply (inj pretty) in Heq. by apply (inj encode) in Heq.
Qed.

Lemma metadata_hash_deterministic_witness :
  StandaloneAudit.metadata_hash (H:=Sample.collaborators) (Sample.owned_by "ann") ∅
  ≠ StandaloneAudit.metadata_hash (H:=Sample.collaborators) (Sample.owned_by "bob") ∅.
Proof.
  destruct (metadata_hash_deterministic (H:=Sample.collaborators)
              (Sample.owned_by "ann") (Sample.owned_by "bob") ∅ ∅
              Sample.select_orders Sample.select_orders eq_refl eq_refl)
    as (_ & _ & _ & _ & _ & _ & _ & Hchange).
  apply Hchange.
  - exact ideal_hash_content_addressed.
  - unfold hash_inputs. simpl. intros [= Hann]. 
Defined.

(** ** Further properties of the validators and of construction *)

Section FieldValidation.
Context `{Collaborators}.

Lemma field_Ok {A} (name : string) (o : option A) (a : A) :
  field name o = Ok a → o = Some a.
Proof. destruct o; simpl; congruence. Qed.

(** What a successful validation says about every field. *)
Lemma validate_fields_inv (blocking0 : bool) (kwargs : gmap string Value)
    (f : AuditFields) :
  validate_fields blocking0 kwargs = Ok f →
  (∃ v, kwargs !! "name" = Some v ∧ audit_string_validator v = Some (f_name f))
  ∧ match kwargs !! "dialect" with
    | None => f_dialect f = EmptyString
    | Some v => audit_string_validator v = Some (f_dialect f)
    end
  ∧ match kwargs !! "skip" with
    | None => f_skip f = false
    | Some v => bool_validator v = Some (f_skip f)
    end
  ∧ match kwargs !! "blocking" with
    | None => f_blocking f = blocking0
    | Some v => bool_validator v = Some (f_blocking f)
    end
  ∧ (∃ v, kwargs !! "query" = Some v ∧ expression_validator v = Some (f_query f))
  ∧ match kwargs !! "defaults" with
    | None => f_defaults f = ∅
    | Some v => audit_map_validator v = Ok (f_defaults f)
    end
  ∧ match kwargs !! "jinja_macros" with
    | None => f_jinja_macros f = JinjaMacroRegistry_ []
    | Some v => jinja_macros_validator v = Some (f_jinja_macros f)
    end.
Proof.
  unfold validate_fields, optional_field. intros Hv.
  apply bind_Ok in Hv as (name & Hname & Hv).
  apply bind_Ok in Hv as (dialect & Hdialect & Hv).
  apply bind_Ok in Hv as (skip & Hskip & Hv).
  apply bind_Ok in Hv as (blocking & Hblocking & Hv).
  apply bind_Ok in Hv as (query & Hquery & Hv).
  apply bind_Ok in Hv as (defaults & Hdefaults & Hv).
  apply bind_Ok in Hv as (jinja & Hjinja & Hv).
  injection Hv as <-. simpl.
  repeat split.
  - destruct (kwargs !! "name") as [v|]; [|discriminate].
    apply field_Ok in Hname. eauto.
  - destruct (kwargs !! "dialect") as [v|]; [by apply field_Ok in Hdialect | congruence].
  - destruct (kwargs !! "skip") as [v|]; [by apply field_Ok in Hskip | congruence].
  - destruct (kwargs !! "blocking") as [v|];
      [by apply field_Ok in Hblocking | congruence].
  - destruct (kwargs !! "query") as [v|]; [|discriminate].
    exists v. split; [done|]. unfold query_validator in Hquery.
    apply bind_Ok in Hquery as (q & Hq & Hmatch). apply field_Ok in Hq.
    destruct q; congruence.
  - destruct (kwargs !! "defaults") as [v|]; congruence.
  - destruct (kwargs !! "jinja_macros") as [v|];
      [by apply field_Ok in Hjinja | congruence].
Qed.

(** X2: whatever keywords are passed, a StandaloneAudit that is
    constructed is not blocking, has no path, and has its dependency cache
    unset, so that its first [depends_on] access computes the set. *)
Theorem standalone_audit_constructed_fresh (kwargs : gmap string Value)
    (args : StandaloneAudit.NodeArgs) (audit : StandaloneAudit.t) :
  StandaloneAudit.new kwargs args = Ok audit →
  StandaloneAudit.blocking audit = false
  ∧ StandaloneAudit._depends_on audit = None
  ∧ StandaloneAudit.depends_on_ audit = StandaloneAudit.arg_depends_on args
  ∧ StandaloneAudit._path audit = None.
Proof.
  unfold StandaloneAudit.new. intros Hnew.
  apply bind_Ok in Hnew as (values & Hroot & Hnew).
  apply bind_Ok in Hnew as (f & Hv & [= <-]). simpl.
  apply validate_fields_inv in Hv as (_ & _ & _ & Hblocking & _).
  unfold StandaloneAudit._node_root_validator in Hroot.
  cbn [StandaloneAudit.values_blocking StandaloneAudit.validated_values] in Hroot.
  destruct (kwargs !! "blocking") as [v|]; [|done].
  rewrite Hblocking in Hroot. simpl in Hroot.
  by destruct (f_blocking f).
Qed.
End FieldValidation.

Lemma standalone_audit_constructed_fresh_witness :
  StandaloneAudit.blocking (Sample.standalone "late_orders" Sample.select_orders None)
  = false
  ∧ StandaloneAudit._depends_on (Sample.standalone "late_orders" Sample.select_orders None)
    = None.
Proof.
  assert (StandaloneAudit.new (H:=Sample.collaborators) Sample.plain_kwargs Sample.no_args
          = Ok (Sample.standalone "late_orders" Sample.select_orders None)) as Hnew
    by (vm_compute; reflexivity).
  destruct (standalone_audit_constructed_fresh (H:=Sample.collaborators)
              Sample.plain_kwargs Sample.no_args _ Hnew) as (Hb & Hc & _).
  split; assumption.
Defined.

(** ** Further properties of the loader *)

Section PyDict.
Context {V : Type}.
Implicit Types pairs : list (string * V).

Lemma py_dict_lookup_None pairs (key : string) :
  key ∉ pairs.*1 → py_dict pairs !! key = None.
Proof.
  intros Hk. unfold py_dict. apply not_elem_of_list_to_map_1.
  by rewrite fmap_reverse, elem_of_reverse.
Qed.

(** A later pair replaces an earlier one with the same key. *)
Lemma py_dict_lookup_last pairs1 pairs2 (key : string) (value : V) :
  key ∉ pairs2.*1 →
  py_dict (pairs1 ++ (key, value) :: pairs2) !! key = Some value.
Proof.
  intros Hk. unfold py_dict.
  rewrite reverse_app, reverse_cons, <- app_assoc, list_to_map_app.
  rewrite lookup_union_r.
  - simpl. apply lookup_insert_eq.
  - apply not_elem_of_list_to_map_1. by rewrite fmap_reverse, elem_of_reverse.
Qed.

Lemma dom_py_dict pairs : dom (py_dict pairs) =@{gset string} list_to_set pairs.*1.
Proof.
  unfold py_dict. rewrite dom_list_to_map_L, fmap_reverse.
  apply set_eq. intros k. by rewrite !elem_of_list_to_set, elem_of_reverse.
Qed.
End PyDict.

Section LoadEdges.
Context `{Collaborators}.

Lemma header_pairs_names (props : list Expression) :
  ((λ prop, (expr_name prop, ModelAudit.property_value prop)) <$> props).*1
  = header_names props.
Proof. unfold header_names. rewrite <- list_fmap_compose. reflexivity. Qed.

Lemma meta_kwargs_lookup_absent (props : list Expression) (dialect : option string)
    (key : string) :
  key ∉ header_names props → key ≠ "dialect" →
  ModelAudit.meta_kwargs props dialect !! key = None.
Proof.
  intros Hk Hne. unfold ModelAudit.meta_kwargs.
  rewrite lookup_union, py_dict_lookup_None, lookup_singleton_ne by
    (by rewrite ?header_pairs_names). done.
Qed.

Lemma meta_kwargs_dialect_absent (props : list Expression) (dialect : option string) :
  "dialect" ∉ header_names props →
  ModelAudit.meta_kwargs props dialect !! "dialect"
  = Some (VStr (default EmptyString dialect)).
Proof.
  intros Hk. unfold ModelAudit.meta_kwargs.
  rewrite lookup_union, py_dict_lookup_None by (by rewrite header_pairs_names).
  by rewrite lookup_singleton_eq.
Qed.

Lemma meta_kwargs_dom (props : list Expression) (dialect : option string)
    (key : string) :
  key ∈ header_names props → key ∈ dom (ModelAudit.meta_kwargs props dialect).
Proof.
  intros Hk. unfold ModelAudit.meta_kwargs.
  rewrite dom_union_L, dom_py_dict, header_pairs_names.
  apply elem_of_union_l. by apply elem_of_list_to_set.
Qed.

Lemma construct_Ok (query : Expression) (statements : list Expression)
    (kwargs : gmap string Value) (audit : ModelAudit.t) :
  ModelAudit.construct query statements kwargs = Ok audit →
  ("query" ∉ dom kwargs) ∧ ("expressions" ∉ dom kwargs)
  ∧ ∃ f, validate_fields true (<["query" := VExpr query]> kwargs) = Ok f
         ∧ audit = {| ModelAudit.name := f_name f; ModelAudit.dialect := f_dialect f;
                      ModelAudit.skip := f_skip f; ModelAudit.blocking := f_blocking f;
                      ModelAudit.query := f_query f;
                      ModelAudit.defaults := f_defaults f;
                      ModelAudit.expressions_ := Some statements;
                      ModelAudit.jinja_macros := f_jinja_macros f;
                      ModelAudit._path := None |}.
Proof.
  unfold ModelAudit.construct.
  destruct (bool_decide_reflect ("query" ∈ dom kwargs)) as [|Hq]; [discriminate|].
  destruct (bool_decide_reflect ("expressions" ∈ dom kwargs)) as [|He]; [discriminate|].
  unfold ModelAudit.new. intros Hnew.
  apply bind_Ok in Hnew as (f & Hv & [= <-]). eauto.
Qed.

(** What a successful [load] went through. *)
Lemma load_Ok (expressions : list Expression) (path : Path)
    (dialect : option string) (audit : ModelAudit.t) :
  ModelAudit.load expressions path dialect = Ok audit →
  ∃ props rest constructed,
    expressions = Audit props :: rest ∧ rest ≠ []
    ∧ ModelAudit.missing_required_fields (ModelAudit.provided_meta_fields props) = ∅
    ∧ ModelAudit.extra_fields (ModelAudit.provided_meta_fields props) = ∅
    ∧ is_Subqueryable (List.last rest (Audit props)) = true
    ∧ ModelAudit.construct (List.last rest (Audit props)) (removelast rest)
        (ModelAudit.meta_kwargs props dialect) = Ok constructed
    ∧ audit = ModelAudit.set_path constructed path.
Proof.
  intros Hload.
  destruct expressions as [|meta rest]; [discriminate|].
  destruct rest as [|second rest]; [discriminate|].
  destruct meta; try discriminate.
  rewrite load_header_block in Hload by discriminate. cbv zeta in Hload.
  destruct (bool_decide_reflect
              (ModelAudit.missing_required_fields
                 (ModelAudit.provided_meta_fields expressions) ≠ ∅)) as [|Hm];
    [by destruct breakpoint|].
  destruct (bool_decide_reflect
              (ModelAudit.extra_fields
                 (ModelAudit.provided_meta_fields expressions) ≠ ∅)) as [|He];
    [discriminate|].
  destruct (is_Subqueryable _) eqn:Hq; [|discriminate]. simpl in Hload.
  destruct (ModelAudit.construct _ _ _) as [constructed|] eqn:Hc; [|discriminate].
  injection Hload as <-.
  exists expressions, (second :: rest), constructed.
  repeat split; try done; by apply dec_stable.
Qed.

Lemma missing_name (props : list Expression) :
  ModelAudit.missing_required_fields (ModelAudit.provided_meta_fields props) ≠ ∅ →
  "name" ∉ header_names props.
Proof.
  intros Hm Hin. apply Hm. apply elem_of_equiv_empty_L. intros x Hx.
  apply elem_of_difference in Hx as [Hreq Hnot]. apply Hnot.
  unfold ModelAudit.required_fields in Hreq.
  unfold ModelAudit.provided_meta_fields.
  apply elem_of_union in Hreq as [Hx|Hx]; apply elem_of_singleton in Hx; subst x.
  - apply elem_of_union_l. by apply elem_of_list_to_set.
  - apply elem_of_union_r. by apply elem_of_singleton.
Qed.

(** The errors of [load]: its own configuration errors, and what the
    debugger call raises where a header has no [name]. *)
Lemma load_Raise (expressions : list Expression) (path : Path)
    (dialect : option string) (e : Error) :
  ModelAudit.load expressions path dialect = Raise e →
  (error_class e = AuditConfigErrorC ∧ error_path e = Some path)
  ∨ (breakpoint = Raise e
     ∧ ∃ props rest, expressions = Audit props :: rest ∧ "name" ∉ header_names props).
Proof.
  unfold ModelAudit.load.
  destruct (length expressions <? 2)%nat; [intros [= <-]; by left|].
  destruct expressions as [|meta rest]; [intros [= <-]; by left|].
  destruct meta as [props| | | | | | | | | | | | | | | | ];
    try (intros [= <-]; by left).
  destruct (bool_decide_reflect
              (ModelAudit.missing_required_fields
                 (ModelAudit.provided_meta_fields props) ≠ ∅)) as [Hm|_].
  { destruct breakpoint as [[]|e'] eqn:Hb; simpl.
    - intros [= <-]. by left.
    - intros [= <-]. right. split; [done|].
      exists props, rest. split; [done|]. by apply missing_name. }
  destruct (bool_decide _); [intros [= <-]; by left|].
  destruct (negb _); [intros [= <-]; by left|].
  destruct (ModelAudit.construct _ _ _); [discriminate | intros [= <-]; by left].
Qed.

(** X3: an error that [load] raises is a configuration error that
    carries the path of the file, or it is what the debugger call raised,
    which [load] makes only for a header without a [name] field; an error
    of the constructor, whatever its class, is raised again as a
    configuration error. *)
Theorem load_raises_config_errors (expressions : list Expression) (path : Path)
    (dialect : option string) :
  (∀ e, ModelAudit.load expressions path dialect = Raise e →
        (error_class e = AuditConfigErrorC ∧ error_path e = Some path)
        ∨ (breakpoint = Raise e
           ∧ ∃ props rest,
               expressions = Audit props :: rest ∧ "name" ∉ header_names props))
  ∧ (∀ props rest ex,
       expressions = Audit props :: rest → rest ≠ [] →
       ModelAudit.missing_required_fields (ModelAudit.provided_meta_fields props) = ∅ →
       ModelAudit.extra_fields (ModelAudit.provided_meta_fields props) = ∅ →
       is_Subqueryable (List.last rest (Audit props)) = true →
       ModelAudit.construct (List.last rest (Audit props)) (removelast rest)
         (ModelAudit.meta_kwargs props dialect) = Raise ex →
       ModelAudit.load expressions path dialect = Raise (ConstructionFailed ex path)).
Proof.
  split; [intros e; apply load_Raise|].
  intros props rest ex -> Hrest Hm He Hq Hc.
  rewrite load_header_block by done. cbv zeta.
  rewrite Hm, He, Hq, Hc.
  rewrite !bool_decide_eq_false_2 by (intros Hn; by apply Hn). reflexivity.
Qed.

(** X4: a block of fewer than two statements is an incomplete definition,
    whatever it holds; a longer block whose first statement is no header
    is refused for that, whatever follows. *)
Theorem load_requires_header (expressions : list Expression) (path : Path)
    (dialect : option string) :
  ((length expressions < 2)%nat →
     ModelAudit.load expressions path dialect = Raise (IncompleteDefinition path))
  ∧ (∀ meta rest, expressions = meta :: rest → rest ≠ [] → is_Audit meta = false →
       ModelAudit.load expressions path dialect
       = Raise (AuditStatementRequired path)).
Proof.
  split.
  - intros Hlen. unfold ModelAudit.load.
    by rewrite (proj2 (Nat.ltb_lt _ _) Hlen).
  - intros meta rest -> Hrest Hmeta. unfold ModelAudit.load.
    rewrite length_lt_2 by done. by destruct meta.
Qed.

(** X5: a loaded definition comes from a block [header, statements...,
    query]: its extra statements are exactly the statements strictly
    between the header and the last statement, its query is what the
    expression validator makes of that last statement, which is a
    SELECT, its macro definitions are the macro definitions among the
    statements in between, and its path is the loader's. *)
Theorem load_shape (expressions : list Expression) (path : Path)
    (dialect : option string) (audit : ModelAudit.t) :
  ModelAudit.load expressions path dialect = Ok audit →
  ∃ props statements query,
    expressions = Audit props :: statements ++ [query]
    ∧ is_Subqueryable query = true
    ∧ expression_validator (VExpr query) = Some (ModelAudit.query audit)
    ∧ ModelAudit.expressions_ audit = Some statements
    ∧ AuditMixin.macro_definitions audit = List.filter is_MacroDef statements
    ∧ ModelAudit._path audit = Some path
    ∧ "name" ∈ header_names props.
Proof.
  intros Hload.
  apply load_Ok in Hload
    as (props & rest & constructed & -> & Hrest & Hm & He & Hq & Hc & ->).
  apply construct_Ok in Hc as (_ & _ & f & Hv & ->).
  apply validate_fields_inv in Hv as (_ & _ & _ & _ & (v & Hk & Hexpr) & _).
  rewrite lookup_insert_eq in Hk. injection Hk as <-.
  exists props, (removelast rest), (List.last rest (Audit props)).
  repeat split; try done.
  - f_equal. by apply app_removelast_last.
  - destruct (decide ("name" ∈ ModelAudit.provided_meta_fields props)) as [Hin|Hout].
    + unfold ModelAudit.provided_meta_fields in Hin.
      apply elem_of_union in Hin as [Hin|Hin].
      * by apply elem_of_list_to_set in Hin.
      * by apply elem_of_singleton in Hin.
    + assert ("name" ∈ ModelAudit.missing_required_fields
                         (ModelAudit.provided_meta_fields props)) as Hmiss.
      { apply elem_of_difference. split; [|done].
        unfold ModelAudit.required_fields.
        apply elem_of_union_l. by apply elem_of_singleton. }
      rewrite Hm in Hmiss. by apply not_elem_of_empty in Hmiss.
Qed.
End LoadEdges.

Lemma load_raises_config_errors_witness :
  ∃ e, ModelAudit.load (H:=Sample.collaborators) Sample.malformed_block "a.sql" None
       = Raise e
       ∧ error_class e = AuditConfigErrorC ∧ error_path e = Some "a.sql".
Proof.
  destruct (ModelAudit.load (H:=Sample.collaborators) Sample.malformed_block "a.sql" None)
    as [audit|e] eqn:Hload; [vm_compute in Hload; discriminate|].
  exists e. split; [reflexivity|].
  destruct (load_raises_config_errors (H:=Sample.collaborators) Sample.malformed_block
              "a.sql" None) as [Hraise _].
  destruct (Hraise e Hload) as [Hconfig|[_ (props & rest & Hblock & Hname)]];
    [exact Hconfig|].
  exfalso. apply Hname. injection Hblock as <- _.
  apply elem_of_cons. by left.
Defined.

Lemma load_requires_header_witness :
  ModelAudit.load (H:=Sample.collaborators) [Sample.orders_header] "a.sql" None
  = Raise (IncompleteDefinition "a.sql")
  ∧ ModelAudit.load (H:=Sample.collaborators)
      [Sample.select_orders; Sample.orders_header; Sample.select_orders] "a.sql" None
    = Raise (AuditStatementRequired "a.sql").
Proof.
  split.
  - apply (load_requires_header (H:=Sample.collaborators)). simpl. lia.
  - eapply (load_requires_header (H:=Sample.collaborators)); [reflexivity | | reflexivity].
    discriminate.
Defined.

Lemma load_shape_witness :
  ∃ props statements query,
    Sample.totals_block = Audit props :: statements ++ [query]
    ∧ statements = [MacroDef "threshold" (Literal "0" false)]
    ∧ is_Subqueryable query = true.
Proof.
  destruct (ModelAudit.load (H:=Sample.collaborators) Sample.totals_block "a.sql" None)
    as [audit|e] eqn:Hload; [|vm_compute in Hload; discriminate].
  destruct (load_shape (H:=Sample.collaborators) _ _ _ _ Hload)
    as (props & statements & query & Hblock & Hq & _).
  exists props, statements, query. split; [exact Hblock|]. split; [|exact Hq].
  unfold Sample.totals_block in Hblock. injection Hblock as _ Hrest.
  destruct statements as [|s1 [|s2 statements]].
  - discriminate Hrest.
  - by injection Hrest as <- _.
  - injection Hrest as _ _ Hnil. by destruct statements.
Defined.

Section LoadFields.
Context `{Collaborators}.

(** X6: a field the header does not declare takes the class default in
    the loaded definition: [skip] is false, [blocking] is true, [defaults]
    is empty, the macro registry is empty, and without a [dialect] field
    the dialect is the loader's default dialect in lower case (empty when
    the loader has none). *)
Theorem load_absent_fields (props rest : list Expression) (path : Path)
    (dialect : option string) (audit : ModelAudit.t) :
  ModelAudit.load (Audit props :: rest) path dialect = Ok audit →
  ("skip" ∉ header_names props → ModelAudit.skip audit = false)
  ∧ ("blocking" ∉ header_names props → ModelAudit.blocking audit = true)
  ∧ ("defaults" ∉ header_names props → ModelAudit.defaults audit = ∅)
  ∧ ("jinja_macros" ∉ header_names props →
     ModelAudit.jinja_macros audit = JinjaMacroRegistry_ [])
  ∧ ("dialect" ∉ header_names props →
     ModelAudit.dialect audit = lower (default EmptyString dialect)).
Proof.
  intros Hload.
  apply load_Ok in Hload
    as (props' & rest' & constructed & [= <- <-] & _ & _ & _ & _ & Hc & ->).
  apply construct_Ok in Hc as (_ & _ & f & Hv & ->).
  apply validate_fields_inv in Hv
    as (_ & Hdialect & Hskip & Hblocking & _ & Hdefaults & Hjinja).
  rewrite lookup_insert_ne in Hdialect, Hskip, Hblocking, Hdefaults, Hjinja by done.
  simpl. split; [|split; [|split; [|split]]]; intros Hk.
  - by rewrite meta_kwargs_lookup_absent in Hskip.
  - by rewrite meta_kwargs_lookup_absent in Hblocking.
  - by rewrite meta_kwargs_lookup_absent in Hdefaults.
  - by rewrite meta_kwargs_lookup_absent in Hjinja.
  - rewrite meta_kwargs_dialect_absent in Hdialect by done.
    injection Hdialect as <-. reflexivity.
Qed.

(** X7: a [dialect] field of the header overrides the loader's default
    dialect, and of several [dialect] fields the last one counts: the
    loaded definition has the lower-cased name of its value. *)
Theorem load_header_dialect (before after rest : list Expression)
    (value : option Expression) (path : Path) (dialect : option string)
    (audit : ModelAudit.t) :
  "dialect" ∉ header_names after →
  ModelAudit.load (Audit (before ++ Property "dialect" value :: after) :: rest)
    path dialect = Ok audit →
  ∃ e, value = Some e ∧ ModelAudit.dialect audit = lower (expr_name e).
Proof.
  intros Hafter Hload.
  apply load_Ok in Hload
    as (props' & rest' & constructed & [= <- <-] & _ & _ & _ & _ & Hc & ->).
  apply construct_Ok in Hc as (_ & _ & f & Hv & ->).
  apply validate_fields_inv in Hv as (_ & Hdialect & _).
  rewrite lookup_insert_ne in Hdialect by done.
  unfold ModelAudit.meta_kwargs in Hdialect.
  rewrite fmap_app, fmap_cons in Hdialect. simpl in Hdialect.
  rewrite lookup_union, py_dict_lookup_last in Hdialect
    by (by rewrite header_pairs_names).
  simpl in Hdialect. unfold ModelAudit.property_value in Hdialect. simpl in Hdialect.
  destruct value as [e|]; rewrite union_Some_l in Hdialect;
    simpl in Hdialect; [|discriminate].
  exists e. split; [done|]. simpl. congruence.
Qed.

(** X8: a header that declares a [query] or an [expressions] field never
    loads: both are passed to the constructor by the loader itself, and a
    keyword given twice is refused. *)
Theorem load_rejects_query_field (props rest : list Expression) (path : Path)
    (dialect : option string) :
  "query" ∈ header_names props ∨ "expressions" ∈ header_names props →
  is_Ok (ModelAudit.load (Audit props :: rest) path dialect) = false.
Proof.
  intros Hk.
  destruct (ModelAudit.load (Audit props :: rest) path dialect) as [audit|e] eqn:Hload;
    [|reflexivity].
  apply load_Ok in Hload
    as (props' & rest' & constructed & [= <- <-] & _ & _ & _ & _ & Hc & _).
  apply construct_Ok in Hc as (Hq & He & _).
  destruct Hk as [Hk|Hk]; apply (meta_kwargs_dom _ dialect) in Hk; done.
Qed.
End LoadFields.

Lemma load_absent_fields_witness :
  ∃ audit,
    ModelAudit.load (H:=Sample.collaborators) Sample.totals_block "a.sql" (Some "DuckDB")
    = Ok audit
    ∧ ModelAudit.blocking audit = true
    ∧ ModelAudit.dialect audit = "duckdb".
Proof.
  destruct (ModelAudit.load (H:=Sample.collaborators) Sample.totals_block "a.sql"
              (Some "DuckDB")) as [audit|e] eqn:Hload;
    [|vm_compute in Hload; discriminate].
  exists audit. split; [reflexivity|].
  destruct (load_absent_fields (H:=Sample.collaborators) _ _ _ _ _ Hload)
    as (_ & Hblocking & _ & _ & Hdialect).
  split.
  - apply Hblocking. vm_compute. intros Hin.
    repeat (apply elem_of_cons in Hin as [Hin|Hin]; [discriminate|]).
    by apply elem_of_nil in Hin.
  - rewrite Hdialect; [reflexivity|]. vm_compute. intros Hin.
    repeat (apply elem_of_cons in Hin as [Hin|Hin]; [discriminate|]).
    by apply elem_of_nil in Hin.
Defined.

Lemma load_header_dialect_witness :
  ∃ audit,
    ModelAudit.load (H:=Sample.collaborators)
      [Audit [Property "dialect" (Some (Literal "Spark" true));
              Property "name" (Some (Literal "a" true));
              Property "dialect" (Some (Literal "BigQuery" true))];
       Sample.select_orders] "a.sql" (Some "snowflake") = Ok audit
    ∧ ModelAudit.dialect audit = "bigquery".
Proof.
  destruct (ModelAudit.load (H:=Sample.collaborators)
      [Audit [Property "dialect" (Some (Literal "Spark" true));
              Property "name" (Some (Literal "a" true));
              Property "dialect" (Some (Literal "BigQuery" true))];
       Sample.select_orders] "a.sql" (Some "snowflake")) as [audit|e] eqn:Hload;
    [|vm_compute in Hload; discriminate].
  exists audit. split; [reflexivity|].
  destruct (load_header_dialect (H:=Sample.collaborators)
              [Property "dialect" (Some (Literal "Spark" true));
               Property "name" (Some (Literal "a" true))] [] _ _ _ _ _
              (not_elem_of_nil _) Hload) as (e & [= <-] & Hdialect).
  exact Hdialect.
Defined.

Lemma load_rejects_query_field_witness :
  is_Ok (ModelAudit.load (H:=Sample.collaborators)
           [Audit [Property "name" (Some (Literal "a" true));
                   Property "query" (Some Sample.select_orders)];
            Sample.select_orders] "a.sql" None) = false.
Proof.
  apply (load_rejects_query_field (H:=Sample.collaborators)).
  left. unfold header_names. simpl. apply elem_of_cons. right.
  apply elem_of_cons. by left.
Defined.

(** ** Defaults given as a tuple of equalities *)

Section Defaults.

Lemma parse_arg_pairs_find (es : list Expression) :
  parse_arg_pairs es
  = match List.find (λ e, negb (is_EQ e)) es with
    | Some e => Raise (InvalidDefaultsExpression e)
    | None => Ok (omap eq_sides es)
    end.
Proof.
  induction es as [|e es IH]; [reflexivity|].
  cbn [parse_arg_pairs List.find].
  destruct e; try reflexivity.
  cbn [_maybe_parse_arg_pair bind is_EQ negb]. rewrite IH.
  by destruct (List.find _ es).
Qed.

(** X9: [audit_map_validator] on a tuple or an array raises the
    configuration error for the first element that is no equality, and
    when all are equalities it yields the dict of left-hand names to
    right-hand sides; a dict passes as it is. *)
Theorem audit_map_validator_tuple (es : list Expression) :
  audit_map_validator (VExpr (Tuple es))
  = match List.find (λ e, negb (is_EQ e)) es with
    | Some e => Raise (InvalidDefaultsExpression e)
    | None => Ok (py_dict (omap eq_sides es))
    end
  ∧ audit_map_validator (VExpr (Array es)) = audit_map_validator (VExpr (Tuple es))
  ∧ ∀ d, audit_map_validator (VDict d) = Ok d.
Proof.
  split; [|split; reflexivity].
  cbn [audit_map_validator]. rewrite parse_arg_pairs_find.
  by destruct (List.find _ es).
Qed.

(** X10: in the dict made from a tuple of equalities, a name maps to the
    right-hand side of the last equality that has it on the left, and a
    name that no equality has on the left is absent. *)
Theorem audit_map_validator_lookup (before after : list Expression)
    (l r : Expression) :
  Forall (λ e, is_EQ e = true) (before ++ EQ l r :: after)%list →
  expr_name l ∉ (omap eq_sides after).*1 →
  ∃ defaults,
    audit_map_validator (VExpr (Tuple (before ++ EQ l r :: after)%list)) = Ok defaults
    ∧ defaults !! expr_name l = Some r
    ∧ ∀ key, key ∉ (omap eq_sides (before ++ EQ l r :: after)%list).*1 →
             defaults !! key = None.
Proof.
  intros Hall Hlast.
  exists (py_dict (omap eq_sides (before ++ EQ l r :: after)%list)).
  split; [|split].
  - cbn [audit_map_validator]. rewrite parse_arg_pairs_find.
    destruct (List.find _ _) as [e|] eqn:Hfind; [|reflexivity].
    apply find_some in Hfind as [Hin Hneg].
    rewrite Forall_forall in Hall. apply list_elem_of_In, Hall in Hin.
    by rewrite Hin in Hneg.
  - rewrite omap_app. cbn [omap list_omap eq_sides].
    by apply py_dict_lookup_last.
  - intros key Hkey. by apply py_dict_lookup_None.
Qed.
End Defaults.

Lemma audit_map_validator_lookup_witness :
  ∃ defaults,
    audit_map_validator
      (VExpr (Tuple [EQ (Column "min_id") (Literal "1" false);
                     EQ (Column "max_id") (Literal "100" false)])) = Ok defaults
    ∧ defaults !! "min_id" = Some (Literal "1" false)
    ∧ defaults !! "max_id" = Some (Literal "100" false).
Proof.
  destruct (audit_map_validator_lookup []
              [EQ (Column "max_id") (Literal "100" false)]
              (Column "min_id") (Literal "1" false))
    as (defaults & Hvalid & Hmin & _).
  { repeat constructor. }
  { simpl. intros Hin. apply elem_of_cons in Hin as [Hin|Hin]; [discriminate|].
    by apply elem_of_nil in Hin. }
  exists defaults. split; [exact Hvalid|]. split; [exact Hmin|].
  simpl in Hvalid. injection Hvalid as <-. vm_compute. reflexivity.
Defined.

(** ** Further properties of rendering *)

Section RenderEdges.
Context `{Collaborators} {A N : Type} `{!AuditMixin.Fields A}
  `{!AuditMixin.Renderable A N}.

(** X11: the keywords the caller passes besides [start], [end],
    [execution_time], [snapshots] and [is_dev] never hold one of these
    names, which are parameters of [render_query] itself.  Then
    [render_query] raises the error of a keyword given twice exactly when a
    declared default is named like one of them; the renderer's answer
    plays no part in that. *)
Theorem render_query_multiple_values (self : A)
    (snapshot_or_node : SnapshotOrNode N)
    (start end_ execution_time : option TimeLike)
    (snapshots : option Snapshots) (is_dev : bool)
    (kwargs : gmap string KwValue) :
  (∀ key, In key AuditMixin.render_parameters → kwargs !! key = None) →
  (∃ keyword,
     AuditMixin.render_query self snapshot_or_node start end_ execution_time
       snapshots is_dev kwargs = Raise (MultipleValues keyword))
  ↔ ∃ key, In key AuditMixin.render_parameters
           ∧ is_Some (AuditMixin.defaults self !! key).
Proof.
  intros Hfree.
  unfold AuditMixin.render_query. cbn [ra_kwargs AuditMixin.render_args].
  destruct (List.find _ AuditMixin.render_parameters) as [k|] eqn:Hfind.
  - apply find_some in Hfind as [Hin Hdom].
    apply bool_decide_eq_true in Hdom.
    split; [intros _|eauto].
    exists k. split; [done|].
    unfold AuditMixin.merged_kwargs in Hdom.
    rewrite dom_union, elem_of_union, !elem_of_dom, lookup_fmap in Hdom.
    destruct Hdom as [Hk|Hk].
    + rewrite (Hfree k Hin) in Hk. by destruct Hk.
    + by apply fmap_is_Some in Hk.
  - split.
    + intros [keyword Hraise].
      by destruct (QueryRenderer_render _ _).
    + intros (key & Hin & Hkey). exfalso.
      apply (find_none _ _ Hfind) in Hin.
      apply bool_decide_eq_false in Hin. apply Hin.
      unfold AuditMixin.merged_kwargs.
      rewrite dom_union, elem_of_union, !elem_of_dom, lookup_fmap.
      right. by apply fmap_is_Some.
Qed.
End RenderEdges.

Section LoadedRenderer.
Context `{Collaborators}.

(** X12: the renderer of a definition loaded without a [dialect] field
    and without a loader default works in the dialect of the model it
    audits; in every case it is built with the loader's path, the loaded
    query, the model's python environment and the model's
    execution-time-only flag. *)
Theorem loaded_audit_renderer (props rest : list Expression) (path : Path)
    (dialect : option string) (audit : ModelAudit.t) (model : Model) :
  ModelAudit.load (Audit props :: rest) path dialect = Ok audit →
  let renderer := ModelAudit._create_query_renderer audit model in
  qr_path renderer = path
  ∧ qr_query renderer = ModelAudit.query audit
  ∧ qr_python_env renderer = model_python_env model
  ∧ qr_only_execution_time renderer = Some (only_execution_time model)
  ∧ ("dialect" ∉ header_names props → default EmptyString dialect = EmptyString →
     qr_dialect renderer = model_dialect model).
Proof.
  intros Hload renderer.
  apply load_Ok in Hload
    as (props' & rest' & constructed & [= <- <-] & _ & _ & _ & _ & Hc & ->).
  apply construct_Ok in Hc as (_ & _ & f & Hv & ->).
  repeat split.
  intros Hk Hdefault.
  apply validate_fields_inv in Hv as (_ & Hdialect & _).
  rewrite lookup_insert_ne in Hdialect by done.
  rewrite meta_kwargs_dialect_absent in Hdialect by done.
  rewrite Hdefault in Hdialect. injection Hdialect as Hd.
  unfold renderer, ModelAudit._create_query_renderer. simpl.
  by rewrite <- Hd.
Qed.
End LoadedRenderer.

Lemma render_query_multiple_values_witness :
  ∃ keyword,
    ModelAudit.render_query (H:=Sample.collaborators) Sample.start_default_audit
      (ANode (Sample.plain_model None)) None None None None false ∅
    = Raise (MultipleValues keyword).
Proof.
  apply (render_query_multiple_values (H:=Sample.collaborators)).
  - intros key Hin. unfold AuditMixin.render_parameters in Hin. simpl in Hin.
    repeat (destruct Hin as [<-|Hin]; [vm_compute; reflexivity|]). done.
  - exists "start". split; [by left|]. by eexists.
Defined.

Lemma loaded_audit_renderer_witness :
  ∃ audit,
    ModelAudit.load (H:=Sample.collaborators) Sample.totals_block "audits/t.sql" None
    = Ok audit
    ∧ qr_dialect (ModelAudit._create_query_renderer audit (Sample.plain_model None))
      = "duckdb"
    ∧ qr_path (ModelAudit._create_query_renderer audit (Sample.plain_model None))
      = "audits/t.sql".
Proof.
  destruct (ModelAudit.load (H:=Sample.collaborators) Sample.totals_block
              "audits/t.sql" None) as [audit|e] eqn:Hload;
    [|vm_compute in Hload; discriminate].
  exists audit. split; [reflexivity|].
  destruct (loaded_audit_renderer (H:=Sample.collaborators) _ _ _ _ _
              (Sample.plain_model None) Hload) as (Hpath & _ & _ & _ & Hdialect).
  split; [|exact Hpath].
  apply Hdialect; [|reflexivity].
  vm_compute. intros Hin.
  repeat (apply elem_of_cons in Hin as [Hin|Hin]; [discriminate|]).
  by apply elem_of_nil in Hin.
Defined.

(** ** Further properties of the dependency cache *)

Section DependsOnEdges.
Context `{Collaborators}.

(** X13: the first successful access of [depends_on] changes no field
    other than the cache and the declared set; a declared set that is not
    empty is the very object the cache is built in, so afterwards it holds
    the computed set too, while an empty or missing declared set stays as
    it is. *)
Theorem depends_on_updates_declared (self : StandaloneAudit.t) (query : Expression) :
  StandaloneAudit._depends_on self = None →
  StandaloneAudit.render_self self = Ok query →
  ∃ final self',
    StandaloneAudit.depends_on self = (Ok final, self', 1%nat)
    ∧ StandaloneAudit._depends_on self' = Some final
    ∧ StandaloneAudit.set_depends_on self'
        (StandaloneAudit.depends_on_ self) None = self
    ∧ (∀ declared, StandaloneAudit.depends_on_ self = Some declared →
         declared ≠ ∅ → StandaloneAudit.depends_on_ self' = Some final)
    ∧ (default ∅ (StandaloneAudit.depends_on_ self) = ∅ →
       StandaloneAudit.depends_on_ self' = StandaloneAudit.depends_on_ self).
Proof.
  intros Hc Hr. unfold StandaloneAudit.depends_on.
  rewrite Hc, render_self_set_depends_on, Hr.
  eexists _, _. split; [reflexivity|]. split; [reflexivity|].
  split; [|split].
  - destruct self. simpl in *. by subst.
  - intros declared Hd Hne. simpl.
    unfold StandaloneAudit.shares_declared. rewrite Hd.
    by rewrite bool_decide_eq_false_2.
  - intros Hempty. simpl. unfold StandaloneAudit.shares_declared.
    destruct (StandaloneAudit.depends_on_ self) as [declared|]; [|reflexivity].
    simpl in Hempty. by rewrite bool_decide_eq_true_2.
Qed.

(** X14: when rendering fails on the first access of [depends_on], the
    access raises the rendering error after the cache was already set to
    the declared set: the next access renders nothing and returns the
    declared set as it is, with the audit's own name still in it if it was
    declared. *)
Theorem depends_on_after_failed_render (self : StandaloneAudit.t) (e : Error) :
  StandaloneAudit._depends_on self = None →
  StandaloneAudit.render_self self = Raise e →
  ∃ self',
    StandaloneAudit.depends_on self = (Raise e, self', 1%nat)
    ∧ StandaloneAudit.depends_on self'
      = (Ok (default ∅ (StandaloneAudit.depends_on_ self)), self', 0%nat).
Proof.
  intros Hc Hr.
  destruct (depends_on_render_failure self e Hc Hr) as (self' & Hfirst & Hcache).
  exists self'. split; [exact Hfirst|]. by apply depends_on_cached.
Qed.
End DependsOnEdges.

Lemma depends_on_updates_declared_witness :
  ∃ self',
    StandaloneAudit.depends_on (H:=Sample.collaborators) Sample.late_orders
    = (Ok {[ "customers"; "orders" ]}, self', 1%nat)
    ∧ StandaloneAudit.depends_on_ self' = Some {[ "customers"; "orders" ]}.
Proof.
  destruct (depends_on_updates_declared (H:=Sample.collaborators) Sample.late_orders
              Sample.select_orders eq_refl eq_refl)
    as (final & self' & Hfirst & _ & _ & Hshared & _).
  exists self'.
  assert (final = {[ "customers"; "orders" ]}) as ->.
  { assert (fst (fst (StandaloneAudit.depends_on (H:=Sample.collaborators)
                        Sample.late_orders)) = Ok final) as Hres by (by rewrite Hfirst).
    vm_compute in Hres. injection Hres as <-. vm_compute. reflexivity. }
  split; [exact Hfirst|].
  apply (Hshared {[ "late_orders"; "customers" ]}); [reflexivity|].
  vm_compute. discriminate.
Defined.

Lemma depends_on_after_failed_render_witness :
  ∃ self',
    StandaloneAudit.depends_on (H:=Sample.collaborators) Sample.templated_audit
    = (Raise (RenderFailed "late_orders" "late_orders"), self', 1%nat)
    ∧ StandaloneAudit.depends_on (H:=Sample.collaborators) self'
      = (Ok {[ "late_orders" ]}, self', 0%nat).
Proof.
  destruct (depends_on_after_failed_render (H:=Sample.collaborators)
              Sample.templated_audit (RenderFailed "late_orders" "late_orders")
              eq_refl eq_refl) as (self' & Hfirst & Hsecond).
  exists self'. split; [exact Hfirst|]. exact Hsecond.
Defined.

(** ** Further properties of [load_multiple] *)

Section LoadMultipleEdges.
Context `{Collaborators}.
Variables (path : Path) (dialect : option string).

Lemma load_headless (block : list Expression) :
  headless block = true → ∃ e, ModelAudit.load block path dialect = Raise e.
Proof.
  intros Hb. destruct (ModelAudit.load block path dialect) as [audit|e] eqn:Hload;
    [|eauto].
  apply load_Ok in Hload as (props & rest & constructed & -> & _).
  discriminate Hb.
Qed.

Lemma load_multiple_from_headless (expressions audit_block : list Expression) :
  headless (audit_block ++ expressions) = true →
  ∃ e, ModelAudit.load_multiple_from audit_block expressions path dialect
       = ([], Some e).
Proof.
  revert audit_block.
  induction expressions as [|expression rest IH]; intros audit_block Hh.
  - rewrite app_nil_r in Hh. destruct (load_headless _ Hh) as [e He].
    simpl. rewrite He. eauto.
  - cbn [ModelAudit.load_multiple_from].
    destruct audit_block as [|a0 audit_block].
    + rewrite andb_false_r. apply IH. exact Hh.
    + destruct (is_Audit expression); cbn [andb].
      * destruct (load_headless (a0 :: audit_block) Hh) as [e He].
        rewrite He. eauto.
      * apply IH. rewrite <- app_assoc. exact Hh.
Qed.

(** X15: on a statement list that is empty or whose first statement is no
    header, [load_multiple] yields no definition at all, also when
    well-formed blocks follow, and ends with a configuration error. *)
Theorem load_multiple_headless (expressions : list Expression) :
  headless expressions = true →
  ∃ e, ModelAudit.load_multiple expressions path dialect = ([], Some e).
Proof.
  intros Hh. unfold ModelAudit.load_multiple.
  by apply load_multiple_from_headless.
Qed.

Lemma load_multiple_from_never_silent (expressions audit_block : list Expression) :
  ModelAudit.load_multiple_from audit_block expressions path dialect ≠ ([], None).
Proof.
  revert audit_block.
  induction expressions as [|expression rest IH]; intros audit_block;
    cbn [ModelAudit.load_multiple_from].
  - by destruct (ModelAudit.load _ _ _).
  - destruct (is_Audit expression && _); [|apply IH].
    destruct (ModelAudit.load _ _ _); [|done].
    by destruct (ModelAudit.load_multiple_from _ _ _ _).
Qed.

(** X16: [load_multiple] never ends quietly with nothing: on every
    statement list it yields at least one definition or ends with an
    error, and an error it ends with is a configuration error of [load]
    carrying the path, or what the debugger call of [load] raised. *)
Theorem load_multiple_never_silent (expressions : list Expression) :
  ModelAudit.load_multiple expressions path dialect ≠ ([], None)
  ∧ ∀ e, (ModelAudit.load_multiple expressions path dialect).2 = Some e →
         (error_class e = AuditConfigErrorC ∧ error_path e = Some path)
         ∨ breakpoint = Raise e.
Proof.
  split; [apply load_multiple_from_never_silent|].
  unfold ModelAudit.load_multiple. generalize (@nil Expression).
  induction expressions as [|expression rest IH]; intros audit_block e;
    cbn [ModelAudit.load_multiple_from].
  - destruct (ModelAudit.load audit_block path dialect) as [audit|e'] eqn:Hload;
      simpl; [discriminate|]. intros [= <-].
    apply load_Raise in Hload as [Hconfig|[Hb _]]; [by left | by right].
  - destruct (is_Audit expression && _); [|apply IH].
    destruct (ModelAudit.load audit_block path dialect) as [audit|e'] eqn:Hload.
    + specialize (IH [expression] e).
      destruct (ModelAudit.load_multiple_from _ _ _ _) as [audits err].
      exact IH.
    + simpl. intros [= <-].
      apply load_Raise in Hload as [Hconfig|[Hb _]]; [by left | by right].
Qed.
End LoadMultipleEdges.

Lemma load_multiple_headless_witness :
  ModelAudit.load_multiple (H:=Sample.collaborators)
    (Sample.select_orders :: Sample.orders_block) "a.sql" None
  = ([], Some (IncompleteDefinition "a.sql")).
Proof.
  destruct (load_multiple_headless (H:=Sample.collaborators) "a.sql" None
              (Sample.select_orders :: Sample.orders_block) eq_refl) as [e He].
  rewrite He. vm_compute in He. injection He as <-. reflexivity.
Defined.

(** ** Further properties of the metadata hash *)

Lemma string_le_iff (x y : string) :
  string_le x y ↔ x = y ∨ String_as_OT.lt x y.
Proof.
  unfold string_le, String.leb.
  destruct (String.compare x y) eqn:Hc.
  - apply String_as_OT.cmp_eq in Hc. tauto.
  - apply String_as_OT.cmp_lt in Hc. tauto.
  - split; [discriminate|]. intros [->|Hlt].
    + assert (String.compare y y = Eq) as Heq by (by apply String_as_OT.cmp_eq).
      congruence.
    + apply String_as_OT.cmp_lt in Hlt. unfold String_as_OT.cmp in Hlt. congruence.
Qed.

Lemma string_le_trans : Transitive string_le.
Proof.
  intros x y z Hxy Hyz. apply string_le_iff in Hxy, Hyz. apply string_le_iff.
  destruct Hxy as [->|Hxy]; [done|]. destruct Hyz as [<-|Hyz]; [by right|].
  right. by eapply String_as_OT.lt_trans.
Qed.

Lemma string_le_antisym : AntiSymm (=) string_le.
Proof. intros x y Hxy Hyx. by apply String.leb_antisym. Qed.

Section MetadataHashEdges.
Context `{Collaborators}.

(** X17: with [hash_raw_query] set, the metadata hash depends on nothing
    but owner, description, the tags up to their order, the python
    environment, the stamp and the query: two audits that agree on these
    have the same hash, whatever their names, dialects, defaults, extra
    statements, dependencies and the audits passed in. *)
Theorem metadata_hash_ignores_tag_order (self1 self2 : StandaloneAudit.t)
    (audits1 audits2 : gmap string ModelAudit.t) :
  StandaloneAudit.hash_raw_query self1 = true →
  StandaloneAudit.hash_raw_query self2 = true →
  StandaloneAudit.owner self1 = StandaloneAudit.owner self2 →
  StandaloneAudit.description self1 = StandaloneAudit.description self2 →
  StandaloneAudit.tags self1 ≡ₚ StandaloneAudit.tags self2 →
  StandaloneAudit.python_env self1 = StandaloneAudit.python_env self2 →
  StandaloneAudit.stamp self1 = StandaloneAudit.stamp self2 →
  StandaloneAudit.query self1 = StandaloneAudit.query self2 →
  ∃ hash, StandaloneAudit.metadata_hash self1 audits1 = Ok hash
          ∧ StandaloneAudit.metadata_hash self2 audits2 = Ok hash.
Proof.
  intros Hr1 Hr2 Ho Hd Ht He Hs Hq.
  unfold StandaloneAudit.metadata_hash, StandaloneAudit.hashed_query.
  rewrite Hr1, Hr2. simpl. eexists. split; [reflexivity|].
  unfold StandaloneAudit.metadata_data, StandaloneAudit.sorted_python_env.
  rewrite Ho, Hd, He, Hs, Hq.
  assert (merge_sort string_le (StandaloneAudit.tags self1)
          = merge_sort string_le (StandaloneAudit.tags self2)) as ->; [|reflexivity].
  apply (@Sorted_unique _ _ string_le_trans string_le_antisym).
  - apply (@Sorted_merge_sort _ _ _ string_le_total).
  - apply (@Sorted_merge_sort _ _ _ string_le_total).
  - by rewrite !merge_sort_Permutation.
Qed.
End MetadataHashEdges.

Lemma metadata_hash_ignores_tag_order_witness :
  StandaloneAudit.metadata_hash (H:=Sample.collaborators) (Sample.owned_by "ann") ∅
  = StandaloneAudit.metadata_hash (H:=Sample.collaborators)
      (Sample.retagged (Sample.owned_by "ann")) ∅.
Proof.
  destruct (metadata_hash_ignores_tag_order (H:=Sample.collaborators)
              (Sample.owned_by "ann") (Sample.retagged (Sample.owned_by "ann")) ∅ ∅)
    as (hash & -> & ->); try reflexivity.
  simpl. apply Permutation_swap.
Defined.

Section RenderOutcome.
Context `{Collaborators}.

(** X18: when no default and no keyword of the caller is named like a
    parameter of [render], rendering a ModelAudit returns exactly the
    expression the renderer yields, and when the renderer yields nothing
    it raises the rendering error that names the audit and the audited
    node: for a snapshot that is the name of the snapshot's node, not of
    its table. *)
Theorem model_audit_render_outcome (self : ModelAudit.t)
    (snapshot_or_node : SnapshotOrNode Model)
    (start end_ execution_time : option TimeLike)
    (snapshots : option Snapshots) (is_dev : bool)
    (kwargs : gmap string KwValue) :
  (∀ key, In key AuditMixin.render_parameters →
     kwargs !! key = None ∧ ModelAudit.defaults self !! key = None) →
  let node := AuditMixin.resolve_node snapshot_or_node in
  let rendered :=
    QueryRenderer_render (ModelAudit._create_query_renderer self node)
      {| ra_start := start; ra_end := end_; ra_execution_time := execution_time;
         ra_snapshots := snapshots; ra_is_dev := is_dev;
         ra_kwargs := ModelAudit.render_context self snapshot_or_node start end_
                        is_dev kwargs |} in
  ModelAudit.render_query self snapshot_or_node start end_ execution_time snapshots
    is_dev kwargs
  = match rendered with
    | Some query => Ok query
    | None => Raise (RenderFailed (ModelAudit.name self) (model_name node))
    end.
Proof.
  intros Hfree node rendered.
  unfold ModelAudit.render_query, AuditMixin.render_query.
  destruct (List.find _ AuditMixin.render_parameters) as [k|] eqn:Hfind;
    [|reflexivity].
  exfalso. apply find_some in Hfind as [Hin Hdom].
  apply bool_decide_eq_true in Hdom.
  destruct (Hfree k Hin) as [Hk Hd].
  cbn [ra_kwargs AuditMixin.render_args] in Hdom.
  apply elem_of_dom in Hdom as [v Hv].
  change (ModelAudit.render_context self snapshot_or_node start end_ is_dev kwargs
            !! k = Some v) in Hv.
  rewrite render_context_lookup, Hk in Hv.
  destruct (decide (k = "this_model")) as [->|Hne].
  - clear -Hin. unfold AuditMixin.render_parameters in Hin. simpl in Hin.
    repeat (destruct Hin as [Hin|Hin]; [discriminate|]). done.
  - change (ModelAudit.defaults self !! k) with (AuditMixin.defaults self !! k) in Hv.
    simpl in Hv. rewrite Hd in Hv. discriminate.
Qed.
End RenderOutcome.

Lemma model_audit_render_outcome_witness :
  ModelAudit.render_query (H:=Sample.collaborators) Sample.orders_audit
    (ASnapshot {| snapshot_node := Sample.plain_model None;
                  table_name := λ _ _, "sqlmesh__db.orders__123" |})
    None None None None true ∅
  = Ok Sample.select_orders.
Proof.
  rewrite (model_audit_render_outcome (H:=Sample.collaborators)); [reflexivity|].
  intros key Hin. unfold AuditMixin.render_parameters in Hin. simpl in Hin.
  repeat (destruct Hin as [<-|Hin]; [split; reflexivity|]). done.
Defined.

Lemma load_multiple_never_silent_witness :
  ModelAudit.load_multiple (H:=Sample.collaborators)
    (Sample.select_orders :: Sample.orders_block) "a.sql" None ≠ ([], None)
  ∧ ∃ e, (ModelAudit.load_multiple (H:=Sample.collaborators)
            (Sample.select_orders :: Sample.orders_block) "a.sql" None).2 = Some e
         ∧ error_class e = AuditConfigErrorC ∧ error_path e = Some "a.sql".
Proof.
  destruct (load_multiple_never_silent (H:=Sample.collaborators) "a.sql" None
              (Sample.select_orders :: Sample.orders_block)) as [Hsome Herr].
  split; [exact Hsome|].
  exists (IncompleteDefinition "a.sql"). split; [vm_compute; reflexivity|].
  destruct (Herr (IncompleteDefinition "a.sql")) as [Hconfig|Hb];
    [vm_compute; reflexivity | exact Hconfig | discriminate Hb].
Defined.
